(** * Jubair Boot House: deployment preparation script and application entrypoint

    A shallow embedding of [deploy_vercel.py] (module [DeployVercel]) and of
    [vercel_main.py] (module [VercelMain]), followed by the properties of both.

    Python code that prints, touches the file system or raises is written in a
    small state-and-exception monad: a computation takes the world, and gives
    back either a value or a raised exception, together with the world it left
    behind.  The effects of a computation that raises are kept, as in Python. *)

From Stdlib Require Import Strings.Byte Strings.Ascii NArith.
From stdpp Require Import gmap strings list fin_maps.


(** ** Python exceptions and outcomes *)

(** An instance of [Exception]: its class name and the text [str(e)] gives. *)
Record exn := Exn { exn_class : string; exn_text : string }.

Definition str (e : exn) : string := exn_text e.

Inductive outcome (A : Type) :=
| Ret (a : A)
| Raise (e : exn).
Arguments Ret {A} a.
Arguments Raise {A} e.

Definition returns {A} (o : outcome A) : bool :=
  match o with Ret _ => true | Raise _ => false end.

(** The newline character, and the double quote (for text that holds one). *)
Definition nl : string := String "010"%char EmptyString.
Definition dq : string := String "034"%char EmptyString.

(** ** The state-and-exception monad, over any world [W] *)

Section Monad.
Context {W : Type}.

Definition M (A : Type) : Type := W -> outcome A * W.

Definition ret {A} (a : A) : M A := fun w => (Ret a, w).

Definition bind {A B} (m : M A) (k : A -> M B) : M B :=
  fun w =>
    match m w with
    | (Ret a, w') => k a w'
    | (Raise e, w') => (Raise e, w')
    end.

Definition raise {A} (e : exn) : M A := fun w => (Raise e, w).

(** [try: body except Exception as e: handler e] *)
Definition try_except {A} (body : M A) (handler : exn -> M A) : M A :=
  fun w =>
    match body w with
    | (Ret a, w') => (Ret a, w')
    | (Raise e, w') => handler e w'
    end.

Definition gets {A} (f : W -> A) : M A := fun w => (Ret (f w), w).
Definition modify (f : W -> W) : M unit := fun w => (Ret tt, f w).

End Monad.
Arguments M : clear implicits.

Declare Scope py_scope.
Delimit Scope py_scope with py.
Notation "'let*' x := m 'in' k" := (bind m (fun x => k))
  (at level 10, x name, m at level 100, k at level 200) : py_scope.
Notation "m >> k" := (bind m (fun _ => k))
  (at level 100, k at level 200, right associativity) : py_scope.
Open Scope py_scope.

(** Truthiness of the Python values the two programs test. *)
Definition truthy_list {A} (l : list A) : bool :=
  match l with [] => false | _ :: _ => true end.

Definition truthy_str (s : string) : bool :=
  match s with EmptyString => false | String _ _ => true end.

(** [Optional[str]]: [None] and the empty string are falsy. *)
Definition truthy_opt_str (o : option string) : bool :=
  match o with None => false | Some s => truthy_str s end.

(** ** Text: substrings and lines *)

(** [needle in hay] *)
Fixpoint contains (needle hay : string) : bool :=
  String.prefix needle hay ||
  match hay with
  | EmptyString => false
  | String _ rest => contains needle rest
  end.

(** [c in s] for a single character. *)
Fixpoint has_char (c : ascii) (s : string) : bool :=
  match s with
  | EmptyString => false
  | String x rest => Ascii.eqb x c || has_char c rest
  end.

(** [s.splitlines()], for text whose only line break is the newline: a line
    ends at each newline, and what follows the last one is a line when it is
    not empty. *)
Fixpoint splitlines (s : string) : list string :=
  match s with
  | EmptyString => []
  | String c rest =>
      if Ascii.eqb c "010" then EmptyString :: splitlines rest
      else match splitlines rest with
           | [] => [String c EmptyString]
           | l :: ls => String c l :: ls
           end
  end.

(** How many lines of [out] name [item]. *)
Definition lines_naming (item : string) (out : list string) : nat :=
  length (List.filter (contains item) out).

(** ** [deploy_vercel.py] *)

Module DeployVercel.

(** *** The world of the script: working directory, entropy source, console *)

(** An entry of the working directory. A file is writable or write-protected. *)
Inductive node :=
| File (writable : bool) (content : string)
| Dir.

(** [entropy = None]: the operating system has no randomness source and
    [os.urandom] raises; [Some f]: the [i]-th byte handed out is [f i]. *)
Record world := World {
  fs : gmap string node;
  entropy : option (nat -> byte);
  stdout : list string
}.

Definition set_fs (f : gmap string node -> gmap string node) (w : world) : world :=
  World (f (fs w)) (entropy w) (stdout w).

(** The world with [ls] added to the console. *)
Definition log (w : world) (ls : list string) : world :=
  World (fs w) (entropy w) (stdout w ++ ls).

(** [print(s)]: one entry of [stdout] per call. *)
Definition print (s : string) : M world unit := modify (fun w => log w [s]).

(** [os.path.exists] and [os.path.isdir]. *)
Definition path_exists (m : gmap string node) (p : string) : bool :=
  match m !! p with Some _ => true | None => false end.

Definition path_isdir (m : gmap string node) (p : string) : bool :=
  match m !! p with Some Dir => true | _ => false end.

Definition os_path_exists (p : string) : M world bool := gets (fun w => path_exists (fs w) p).
Definition os_path_isdir (p : string) : M world bool := gets (fun w => path_isdir (fs w) p).

(** *** [check_vercel_files] *)

Definition required_files : list string :=
  ["vercel.json"; "vercel_main.py"; "requirements-vercel.txt"].

Definition present_file_line (file : string) : string := "✅ " +:+ file.

Definition missing_files_line (missing_files : list string) : string :=
  "❌ Missing files: " +:+ String.concat ", " missing_files.

(** The [for file in required_files] loop, threading [missing_files]. *)
Fixpoint files_loop (required : list string) (missing_files : list string)
  : M world (list string) :=
  match required with
  | [] => ret missing_files
  | file :: rest =>
      let* e := os_path_exists file in
      if negb e then files_loop rest (missing_files ++ [file])
      else print (present_file_line file) >> files_loop rest missing_files
  end.

Definition check_files (required : list string) : M world bool :=
  print "Checking Vercel deployment files..." >>
  let* missing_files := files_loop required [] in
  if truthy_list missing_files then
    print (missing_files_line missing_files) >> ret false
  else
    print "✅ All Vercel files are present!" >> ret true.

Definition check_vercel_files : M world bool := check_files required_files.

(** *** [check_project_structure] *)

Definition required_dirs : list string := ["app"; "static"; "templates"].

Definition present_dir_line (dir_name : string) : string :=
  "✅ " +:+ dir_name +:+ "/ directory".

Definition missing_dir_line (dir_name : string) : string :=
  "❌ " +:+ dir_name +:+ "/ directory missing".

(** The [for dir_name in required_dirs] loop. [Some v]: the loop body executed
    [return v]; [None]: the loop ran to its end. *)
Fixpoint dirs_loop (required : list string) : M world (option bool) :=
  match required with
  | [] => ret None
  | dir_name :: rest =>
      let* e := os_path_exists dir_name in
      let* d := (if e then os_path_isdir dir_name else ret false) in
      if d then print (present_dir_line dir_name) >> dirs_loop rest
      else print (missing_dir_line dir_name) >> ret (Some false)
  end.

Definition check_dirs (required : list string) : M world bool :=
  print (nl +:+ "🏗️  Checking project structure...") >>
  let* returned := dirs_loop required in
  match returned with
  | Some v => ret v
  | None => print "✅ Project structure is correct!" >> ret true
  end.

Definition check_project_structure : M world bool := check_dirs required_dirs.

(** What a run of a computation adds to the console. *)
Definition printed {A} (m : M world A) (w : world) : list string :=
  drop (length (stdout w)) (stdout (snd (m w))).

(** The test of the directory loop: [exists(d) and isdir(d)]. *)
Definition dir_ok (m : gmap string node) (d : string) : bool :=
  path_exists m d && path_isdir m d.

(** The directories the loop gets through before it stops, and the one it
    stops at (if any). *)
Fixpoint dirs_before_stop (ok : string -> bool) (required : list string) : list string :=
  match required with
  | [] => []
  | d :: rest => if ok d then d :: dirs_before_stop ok rest else []
  end.

Fixpoint dir_stopped_at (ok : string -> bool) (required : list string) : option string :=
  match required with
  | [] => None
  | d :: rest => if ok d then dir_stopped_at ok rest else Some d
  end.

(** A run of [check] from [w] gives every required item exactly one line of
    the console. *)
Definition one_line_per_item (check : M world bool) (required : list string)
    (w : world) : Prop :=
  forall item, item ∈ required -> lines_naming item (printed check w) = 1.

(** *** The Python standard library the secret generator calls

    [secrets.token_urlsafe(n)] is, in CPython,
    [base64.urlsafe_b64encode(token_bytes(n)).rstrip(b'=').decode('ascii')],
    and [token_bytes(n)] is [os.urandom(n)]. *)

Definition b64_alphabet : list ascii :=
  String.list_ascii_of_string "ABCDEFGHIJKLMNOPQRSTUVWXYZabcdefghijklmnopqrstuvwxyz0123456789+/".

(** The character of the low six bits of [n]. *)
Definition b64_char (n : N) : ascii :=
  nth (N.to_nat (N.land n 63)) b64_alphabet "A"%char.

Definition b64_pad : ascii := "="%char.

Fixpoint b64encode (bs : list byte) : list ascii :=
  match bs with
  | [] => []
  | [b1] =>
      let n := N.shiftl (Byte.to_N b1) 16 in
      [b64_char (N.shiftr n 18); b64_char (N.shiftr n 12); b64_pad; b64_pad]
  | [b1; b2] =>
      let n := N.lor (N.shiftl (Byte.to_N b1) 16) (N.shiftl (Byte.to_N b2) 8) in
      [b64_char (N.shiftr n 18); b64_char (N.shiftr n 12); b64_char (N.shiftr n 6); b64_pad]
  | b1 :: b2 :: b3 :: rest =>
      let n := N.lor (N.lor (N.shiftl (Byte.to_N b1) 16) (N.shiftl (Byte.to_N b2) 8))
                     (Byte.to_N b3) in
      b64_char (N.shiftr n 18) :: b64_char (N.shiftr n 12) ::
      b64_char (N.shiftr n 6) :: b64_char n :: b64encode rest
  end.

(** [bytes.maketrans(b'+/', b'-_')] *)
Definition urlsafe_translate (c : ascii) : ascii :=
  if Ascii.eqb c "+" then "-"%char
  else if Ascii.eqb c "/" then "_"%char
  else c.

Definition urlsafe_b64encode (bs : list byte) : list ascii :=
  map urlsafe_translate (b64encode bs).

(** [s.rstrip(c)] for a single character [c]. *)
Fixpoint rstrip (c : ascii) (s : list ascii) : list ascii :=
  match s with
  | [] => []
  | x :: t =>
      match rstrip c t with
      | [] => if Ascii.eqb x c then [] else [x]
      | t' => x :: t'
      end
  end.

Definition urandom_error : exn :=
  Exn "NotImplementedError" "/dev/urandom (or equivalent) not found".

Definition os_urandom (n : nat) : M world (list byte) :=
  fun w =>
    match entropy w with
    | Some f => (Ret (map f (seq 0 n)), w)
    | None => (Raise urandom_error, w)
    end.

Definition token_bytes (nbytes : nat) : M world (list byte) := os_urandom nbytes.

Definition token_urlsafe (nbytes : nat) : M world string :=
  let* tok := token_bytes nbytes in
  ret (String.string_of_list_ascii (rstrip b64_pad (urlsafe_b64encode tok))).

(** The characters of an unpadded URL-safe token. *)
Definition urlsafe_alphabet : list ascii :=
  String.list_ascii_of_string "ABCDEFGHIJKLMNOPQRSTUVWXYZabcdefghijklmnopqrstuvwxyz0123456789-_".

Definition is_urlsafe (c : ascii) : bool := existsb (Ascii.eqb c) urlsafe_alphabet.

(** How many characters and how many pads [b64encode] gives [n] bytes. *)
Fixpoint b64_body_length (n : nat) : nat :=
  match n with
  | 0 => 0
  | 1 => 2
  | 2 => 3
  | S (S (S m)) => 4 + b64_body_length m
  end.

Fixpoint b64_padding (n : nat) : nat :=
  match n with
  | 0 => 0
  | 1 => 2
  | 2 => 1
  | S (S (S m)) => b64_padding m
  end.

(** The token [token_urlsafe(32)] returns when the entropy source hands out
    the bytes [f 0, f 1, ...]. *)
Definition token_of (f : nat -> byte) : string :=
  String.string_of_list_ascii (rstrip b64_pad (urlsafe_b64encode (map f (seq 0 32)))).

(** The exception [open(path, "w")] raises, if it does: a directory and a
    write-protected file cannot be opened for writing. *)
Definition open_error (m : gmap string node) (path : string) : option exn :=
  match m !! path with
  | Some Dir =>
      Some (Exn "IsADirectoryError" ("[Errno 21] Is a directory: '" +:+ path +:+ "'"))
  | Some (File false _) =>
      Some (Exn "PermissionError" ("[Errno 13] Permission denied: '" +:+ path +:+ "'"))
  | _ => None
  end.

(** [open(path, "w", encoding="utf-8")]: when it is not refused, the file is
    created or truncated. The handle is the path. Text is held as its UTF-8
    bytes. *)
Definition open_w (path : string) : M world string :=
  fun w =>
    match open_error (fs w) path with
    | Some e => (Raise e, w)
    | None => (Ret path, set_fs (insert path (File true "")) w)
    end.

(** [f.write(s)] appends to what the handle has written so far. *)
Definition write (f : string) (s : string) : M world unit :=
  modify (set_fs (fun m =>
    match m !! f with
    | Some (File wr c) => <[f := File wr (c +:+ s)]> m
    | _ => m
    end)).

(** *** [generate_secret_key] *)

Definition secret_key_file : string := "vercel_secret_key.txt".

(** The line the generator logs for the exception it caught. *)
Definition error_line (e : exn) : string :=
  "❌ Error generating secret key: " +:+ str e.

(** What the generator writes for the token [secret_key]. *)
Definition secret_file_content (secret_key : string) : string :=
  ("SECRET_KEY=" +:+ secret_key +:+ nl) +:+
  ("ENVIRONMENT=production" +:+ nl) +:+
  ("DEBUG=false" +:+ nl).

Definition generate_secret_key : M world (option string) :=
  print (nl +:+ "🔑 Generating secure secret key...") >>
  try_except
    (let* secret_key := token_urlsafe 32 in
     print ("✅ Generated SECRET_KEY: " +:+ secret_key) >>
     (let* f := open_w secret_key_file in
      write f ("SECRET_KEY=" +:+ secret_key +:+ nl) >>
      write f ("ENVIRONMENT=production" +:+ nl) >>
      write f ("DEBUG=false" +:+ nl)) >>
     print "📝 Secret key saved to 'vercel_secret_key.txt'" >>
     print "💡 Copy these environment variables to Vercel dashboard" >>
     ret (Some secret_key))
    (fun e =>
       print (error_line e) >>
       ret None).

(** The lines of the file at [p], when there is one. *)
Definition file_lines (w : world) (p : string) : option (list string) :=
  match fs w !! p with
  | Some (File _ content) => Some (splitlines content)
  | _ => None
  end.

Definition secret_file_line_count (w : world) : option nat :=
  length <$> file_lines w secret_key_file.

(** A world with nothing in the working directory and an entropy source that
    hands out zero bytes, and the token made of them. *)
Definition zero_entropy_world : world := World ∅ (Some (fun _ => x00)) [].

Definition zero_token : string := "AAAAAAAAAAAAAAAAAAAAAAAAAAAAAAAAAAAAAAAAAAA".

(** *** [create_deployment_checklist] *)

Definition unlines (ls : list string) : string :=
  fold_right (fun l acc => l +:+ nl +:+ acc) "" ls.

Definition checklist_lines : list string :=
  ["# Vercel Deployment Checklist";
   "";
   "## ✅ Pre-Deployment";
   "- [ ] All Vercel files are present (vercel.json, vercel_main.py, requirements-vercel.txt)";
   "- [ ] Project structure is correct (app/, static/, templates/)";
   "- [ ] Code is pushed to GitHub";
   "- [ ] Secret key is generated";
   "";
   "## 🏗️ Deployment Steps";
   "1. [ ] Go to [vercel.com](https://vercel.com) and sign up/login";
   ("2. [ ] Click " +:+ dq +:+ "New Project" +:+ dq +:+ "");
   "3. [ ] Import your GitHub repository";
   "4. [ ] Configure project settings";
   ("5. [ ] Click " +:+ dq +:+ "Deploy" +:+ dq +:+ "");
   "6. [ ] Add environment variables:";
   "   - ENVIRONMENT=production";
   "   - DEBUG=false";
   "   - SECRET_KEY=[your-generated-key]";
   "7. [ ] Redeploy with environment variables";
   "";
   "## 🧪 Post-Deployment Testing";
   "- [ ] App is accessible at Vercel URL";
   "- [ ] Health endpoint (/health) works";
   "- [ ] Home page loads correctly";
   "- [ ] All navigation works";
   "- [ ] User registration works";
   "- [ ] Admin login works";
   "";
   "## 🔧 Environment Variables for Vercel";
   "```";
   "ENVIRONMENT=production";
   "DEBUG=false";
   "SECRET_KEY=[your-secret-key-here]";
   "```";
   "";
   "## 📱 Your Vercel URL";
   "After deployment, your app will be available at:";
   "`https://your-project-name.vercel.app`";
   "";
   "## 🚨 Important Notes";
   "- Vercel uses serverless functions (no persistent storage)";
   "- Database resets on each deployment";
   "- Cold starts may cause initial delays";
   "- Perfect for demos and testing";
   "- Consider external database for production data";
   "";
   "---";
   "**Happy deploying on Vercel! 🚀**"].

(** The triple-quoted literal: every line, the last one included, ends in a
    newline. *)
Definition checklist_content : string := unlines checklist_lines.

Definition checklist_file : string := "VERCEL-CHECKLIST.md".

Definition create_deployment_checklist : M world unit :=
  print (nl +:+ "📋 Creating deployment checklist...") >>
  (let* f := open_w checklist_file in
   write f checklist_content) >>
  print "✅ Deployment checklist created: 'VERCEL-CHECKLIST.md'".

(** *** [main] and the process exit status *)

(** [s * n] *)
Fixpoint str_mul (s : string) (n : nat) : string :=
  match n with
  | O => ""
  | S n' => s +:+ str_mul s n'
  end.

Definition main : M world bool :=
  print "🚀 Vercel Deployment Preparation for Jubair Boot House" >>
  print (str_mul "=" 60) >>
  let* files_ok := check_vercel_files in
  if negb files_ok then
    print (nl +:+ "❌ Please create missing Vercel files before deployment") >>
    ret false
  else
  let* structure_ok := check_project_structure in
  if negb structure_ok then
    print (nl +:+ "❌ Please fix project structure before deployment") >>
    ret false
  else
  let* secret_key := generate_secret_key in
  if negb (truthy_opt_str secret_key) then
    print (nl +:+ "❌ Failed to generate secret key") >>
    ret false
  else
  create_deployment_checklist >>
  print (nl +:+ str_mul "=" 60) >>
  print "🎉 Vercel deployment preparation completed!" >>
  print (nl +:+ "📝 Next steps:") >>
  print "1. Push your code to GitHub" >>
  print "2. Go to vercel.com and create account" >>
  print "3. Import your repository" >>
  print "4. Deploy with the generated environment variables" >>
  print (nl +:+ "📋 Check 'VERCEL-CHECKLIST.md' for detailed steps") >>
  print "🔑 Check 'vercel_secret_key.txt' for environment variables" >>
  ret true.

(** [success = main(); sys.exit(0 if success else 1)]: the exit status of the
    process. An exception nobody caught ends the interpreter with status 1. *)
Definition exit_status (w : world) : nat * world :=
  match main w with
  | (Ret success, w') => ((if success then 0 else 1)%nat, w')
  | (Raise _, w') => (1%nat, w')
  end.

(** The three checks of the preparation, each run from [w], succeed. *)
Definition checks_succeed (w : world) : Prop :=
  fst (check_vercel_files w) = Ret true /\
  fst (check_project_structure w) = Ret true /\
  exists tok, fst (generate_secret_key w) = Ret (Some tok).

(** What [main] prints before the first check. *)
Definition banner : list string :=
  ["🚀 Vercel Deployment Preparation for Jubair Boot House"; str_mul "=" 60].

(** What [main] prints after the checklist is written. *)
Definition closing_lines : list string :=
  [nl +:+ str_mul "=" 60;
   "🎉 Vercel deployment preparation completed!";
   nl +:+ "📝 Next steps:";
   "1. Push your code to GitHub";
   "2. Go to vercel.com and create account";
   "3. Import your repository";
   "4. Deploy with the generated environment variables";
   nl +:+ "📋 Check 'VERCEL-CHECKLIST.md' for detailed steps";
   "🔑 Check 'vercel_secret_key.txt' for environment variables"].

(** A working directory with every required file and directory, and a
    working entropy source. *)
Definition prepared_world : world :=
  World (list_to_map
           [("vercel.json", File true "{}");
            ("vercel_main.py", File true "");
            ("requirements-vercel.txt", File true "fastapi");
            ("app", Dir); ("static", Dir); ("templates", Dir)])
        (Some (fun _ => x00)) [].

(** The same, with a directory where the checklist is to be written. *)
Definition checklist_blocked_world : world :=
  set_fs (insert checklist_file Dir) prepared_world.

End DeployVercel.

(** ** [vercel_main.py] *)

Module VercelMain.

(** What the database helpers may hand back: the handlers only test the
    truthiness of the value. *)
Inductive pyval :=
| PyNone
| PyBool (b : bool)
| PyInt (z : Z)
| PyStr (s : string).

Definition truthy (v : pyval) : bool :=
  match v with
  | PyNone => false
  | PyBool b => b
  | PyInt z => negb (z =? 0)%Z
  | PyStr s => truthy_str s
  end.

(** A dict literal of strings and dicts, in the order it is written. *)
#[local] Unset Elimination Schemes.
Inductive json :=
| JStr (s : string)
| JObj (fields : list (string * json)).
#[local] Set Elimination Schemes.

Fixpoint assoc {A} (key : string) (fields : list (string * A)) : option A :=
  match fields with
  | [] => None
  | (k, v) :: rest => if String.eqb k key then Some v else assoc key rest
  end.

(** [payload[key]] *)
Definition field (key : string) (payload : json) : option json :=
  match payload with
  | JObj fields => assoc key fields
  | JStr _ => None
  end.

(** The world of the application: whatever the database helpers work on
    ([E], left open), and the console. *)
Record world (E : Type) := World { ext : E; stdout : list string }.
Arguments World {E} ext stdout.
Arguments ext {E} w.
Arguments stdout {E} w.

Record request := Request {
  method : string;
  path : string;
  query_string : string;
  headers : list (string * string);
  body : string
}.

Inductive response :=
| Redirect (status_code : nat) (location : string)
| Template (name : string) (context : list (string * request)).

(** [starlette.responses.RedirectResponse(url=...)]: status 307 unless told
    otherwise, the target in the [location] header. *)
Definition RedirectResponse (url : string) : response := Redirect 307 url.

(** [templates.TemplateResponse(name, context)] *)
Definition TemplateResponse (name : string) (context : list (string * request)) : response :=
  Template name context.

Section App.
Context {E : Type}.

(** [app.database.test_connection] and [app.database.init_db]: imported, not
    defined here. Each may change the world, return any value, or raise. *)
Variable test_connection : M (world E) pyval.
Variable init_db : M (world E) pyval.

(** The world with [ls] added to the console. *)
Definition log (w : world E) (ls : list string) : world E :=
  World (ext w) (stdout w ++ ls).

Definition print (s : string) : M (world E) unit := modify (fun w => log w [s]).

(** *** [startup_event] *)

Definition startup_event : M (world E) unit :=
  print "🚀 Starting Jubair Boot House on Vercel..." >>
  print "💻 Vercel mode: Using SQLite database" >>
  let* connected := test_connection in
  if truthy connected then
    print "✅ SQLite connection established" >>
    let* created := init_db in
    if truthy created then print "✅ SQLite tables verified/created"
    else print "⚠️  SQLite table initialization had issues"
  else
    print "❌ SQLite connection failed - app will continue with limited functionality".

(** *** [health_check] *)

Definition health_check : M (world E) json :=
  try_except
    (let* connected := test_connection in
     let db_status := if truthy connected then "connected" else "disconnected" in
     ret (JObj [
       ("status", JStr (if String.eqb db_status "connected" then "healthy" else "warning"));
       ("database", JObj [("type", JStr "SQLite"); ("status", JStr db_status)]);
       ("environment", JStr "vercel");
       ("platform", JStr "serverless");
       ("app", JStr "Jubair Boot House");
       ("version", JStr "1.0.0")]))
    (fun e =>
       ret (JObj [
         ("status", JStr "error");
         ("message", JStr (str e));
         ("environment", JStr "vercel")])).

End App.

(** A database helper that finds no database and raises. *)
Definition db_down : M (world unit) pyval :=
  raise (Exn "OperationalError" "unable to open database file").

(** The target of a response that is an HTTP redirect (status 3xx). *)
Definition redirect_target (r : response) : option string :=
  match r with
  | Redirect status_code location =>
      if (300 <=? status_code) && (status_code <? 400) then Some location else None
  | Template _ _ => None
  end.

(** *** The page and redirect handlers *)

Definition home_page (req : request) : response :=
  TemplateResponse "home.html" [("request", req)].

Definition catalog_redirect (req : request) : response :=
  RedirectResponse "/products/".

Definition admin_dashboard_redirect (req : request) : response :=
  RedirectResponse "/products/admin/dashboard".

Definition admin_users_redirect (req : request) : response :=
  RedirectResponse "/auth/admin/users".

Definition size_guide_page (req : request) : response :=
  TemplateResponse "size_guide.html" [("request", req)].

Definition contact_page (req : request) : response :=
  TemplateResponse "contact.html" [("request", req)].

Definition about_page (req : request) : response :=
  TemplateResponse "about.html" [("request", req)].

Definition faq_page (req : request) : response :=
  TemplateResponse "faq.html" [("request", req)].

Definition terms_page (req : request) : response :=
  TemplateResponse "terms.html" [("request", req)].

Definition privacy_page (req : request) : response :=
  TemplateResponse "privacy.html" [("request", req)].

Definition cookies_page (req : request) : response :=
  TemplateResponse "cookies.html" [("request", req)].

Definition returns_page (req : request) : response :=
  TemplateResponse "returns.html" [("request", req)].

Definition shipping_page (req : request) : response :=
  TemplateResponse "shipping.html" [("request", req)].

(** The [@app.get(path, response_class=HTMLResponse)] registrations of this
    file that take the request, in the order they are made. *)
Definition page_routes : list (string * (request -> response)) :=
  [("/", home_page);
   ("/catalog", catalog_redirect);
   ("/admin/dashboard", admin_dashboard_redirect);
   ("/admin/users", admin_users_redirect);
   ("/size-guide", size_guide_page);
   ("/contact", contact_page);
   ("/about", about_page);
   ("/faq", faq_page);
   ("/terms", terms_page);
   ("/privacy", privacy_page);
   ("/cookies", cookies_page);
   ("/returns", returns_page);
   ("/shipping", shipping_page)].

(** The response of the first registration whose path and method match. *)
Definition serve_page (req : request) : option response :=
  if String.eqb (method req) "GET" then
    match assoc (path req) page_routes with
    | Some handler => Some (handler req)
    | None => None
    end
  else None.

End VercelMain.

(** Case analysis on which element of a literal list [H : x ∈ [a; b; ...]]
    names. *)
Ltac each_item H :=
  repeat (apply elem_of_cons in H as [->|H]); [..| by apply elem_of_nil in H].

(** Case analysis on which entry of a literal route table [H : (p, h) ∈ ...]
    names. *)
Ltac each_route H :=
  repeat (apply elem_of_cons in H as [[= -> ->]|H]); [..| by apply elem_of_nil in H].

(** A served response at a known path: a redirect at a redirect path, a
    template with the request as its context anywhere else. *)
Ltac classify_route :=
  cbn; split;
  [ split;
    [ first [ solve [intros [? [=]]]
            | solve [intros _;
                     repeat first [apply list_elem_of_here | apply list_elem_of_further]] ]
    | first [ solve [intros _; by eexists]
            | solve [intros Hin; exfalso;
                     repeat (apply elem_of_cons in Hin as [Hin|Hin]; [discriminate Hin|]);
                     by apply elem_of_nil in Hin] ] ]
  | first [ solve [discriminate] | solve [intros _; by eexists] ] ].

(** * Properties *)

(** ** The monad *)

Section MonadFacts.
Context {W : Type}.

Lemma bind_returns {A B} (m : M W A) (k : A -> M W B) (w w' : W) (a : A) :
  m w = (Ret a, w') -> bind m k w = k a w'.
Proof. intros Hm. unfold bind. rewrite Hm. reflexivity. Qed.

Lemma bind_raises {A B} (m : M W A) (k : A -> M W B) (w w' : W) (e : exn) :
  m w = (Raise e, w') -> bind m k w = (Raise e, w').
Proof. intros Hm. unfold bind. rewrite Hm. reflexivity. Qed.

End MonadFacts.

(** ** [deploy_vercel.py]: the two checkers *)

Section Checkers.
Import DeployVercel.

Lemma print_run (s : string) (w : world) : print s w = (Ret tt, log w [s]).
Proof. reflexivity. Qed.

Lemma log_log (w : world) (l1 l2 : list string) : log (log w l1) l2 = log w (l1 ++ l2).
Proof. unfold log. cbn. by rewrite <- app_assoc. Qed.

Lemma log_nil (w : world) : log w [] = w.
Proof. destruct w. unfold log. cbn. by rewrite app_nil_r. Qed.

Lemma files_loop_run (required : list string) :
  forall (missing : list string) (w : world),
    files_loop required missing w =
    (Ret (missing ++ List.filter (fun f => negb (path_exists (fs w) f)) required),
     log w (map present_file_line (List.filter (path_exists (fs w)) required))).
Proof.
  induction required as [|file rest IH]; intros missing w.
  - cbn. by rewrite app_nil_r, log_nil.
  - cbn [files_loop List.filter].
    unfold bind at 1. unfold os_path_exists, gets.
    destruct (path_exists (fs w) file) eqn:Hfile; cbn [negb].
    + rewrite (bind_returns _ _ _ _ _ (print_run _ w)), IH. cbn [fs log].
      by rewrite log_log.
    + rewrite IH. by rewrite <- app_assoc.
Qed.

Lemma printed_log {A} (m : M world A) (w : world) (a : outcome A) (ls : list string) :
  m w = (a, log w ls) -> printed m w = ls.
Proof.
  intros Hm. unfold printed. rewrite Hm. cbn. apply drop_app_length.
Qed.

Lemma no_missing_iff_all (ex : string -> bool) (required : list string) :
  truthy_list (List.filter (fun f => negb (ex f)) required) = negb (forallb ex required).
Proof.
  induction required as [|f rest IH]; [done|].
  cbn. destruct (ex f); cbn; [exact IH | done].
Qed.

(** A run of the file checker: it never raises, leaves the file system alone,
    and prints the header, a line per present file, and one closing line. *)
Lemma check_files_run (required : list string) (w : world) :
  check_files required w =
  (Ret (forallb (path_exists (fs w)) required),
   log w ("Checking Vercel deployment files..." ::
          map present_file_line (List.filter (path_exists (fs w)) required) ++
          [if forallb (path_exists (fs w)) required
           then "✅ All Vercel files are present!"
           else missing_files_line
                  (List.filter (fun f => negb (path_exists (fs w) f)) required)])).
Proof.
  unfold check_files.
  rewrite (bind_returns _ _ _ _ _ (print_run _ w)).
  rewrite (bind_returns _ _ _ _ _ (files_loop_run required [] _)).
  cbn [fs log app]. rewrite no_missing_iff_all.
  destruct (forallb (path_exists (fs w)) required); cbn [negb];
    rewrite (bind_returns _ _ _ _ _ (print_run _ _)); unfold ret;
    rewrite !log_log; reflexivity.
Qed.

Lemma dirs_loop_run (required : list string) :
  forall w : world,
    dirs_loop required w =
    (Ret (match dir_stopped_at (dir_ok (fs w)) required with
          | Some _ => Some false
          | None => None
          end),
     log w (map present_dir_line (dirs_before_stop (dir_ok (fs w)) required) ++
            match dir_stopped_at (dir_ok (fs w)) required with
            | Some d => [missing_dir_line d]
            | None => []
            end)).
Proof.
  induction required as [|d rest IH]; intros w.
  - cbn. by rewrite log_nil.
  - cbn [dirs_loop dirs_before_stop dir_stopped_at].
    unfold bind at 1. unfold os_path_exists, gets.
    assert (Hd : (if path_exists (fs w) d then os_path_isdir d else ret false) w
                 = (Ret (dir_ok (fs w) d), w)).
    { unfold dir_ok. by destruct (path_exists (fs w) d). }
    rewrite (bind_returns _ _ _ _ _ Hd).
    destruct (dir_ok (fs w) d);
      rewrite (bind_returns _ _ _ _ _ (print_run _ w)).
    + rewrite IH. cbn [fs log]. by rewrite log_log.
    + reflexivity.
Qed.

Lemma stopped_iff_not_all (ok : string -> bool) (required : list string) :
  forallb ok required = match dir_stopped_at ok required with Some _ => false | None => true end.
Proof.
  induction required as [|d rest IH]; [done|].
  cbn. destruct (ok d); cbn; [exact IH | done].
Qed.

(** A run of the structure checker: it never raises, leaves the file system
    alone, and stops at the first required directory that is not there. *)
Lemma check_dirs_run (required : list string) (w : world) :
  check_dirs required w =
  (Ret (forallb (dir_ok (fs w)) required),
   log w ((nl +:+ "🏗️  Checking project structure...") ::
          map present_dir_line (dirs_before_stop (dir_ok (fs w)) required) ++
          [match dir_stopped_at (dir_ok (fs w)) required with
           | Some d => missing_dir_line d
           | None => "✅ Project structure is correct!"
           end])).
Proof.
  unfold check_dirs.
  rewrite (bind_returns _ _ _ _ _ (print_run _ w)).
  rewrite (bind_returns _ _ _ _ _ (dirs_loop_run required _)).
  cbn [fs log]. rewrite stopped_iff_not_all.
  destruct (dir_stopped_at (dir_ok (fs w)) required) as [d|].
  - unfold ret. by rewrite !log_log.
  - rewrite (bind_returns _ _ _ _ _ (print_run _ _)). unfold ret.
    by rewrite !log_log, app_nil_r.
Qed.

Lemma path_exists_is_Some (m : gmap string node) (p : string) :
  path_exists m p = true <-> is_Some (m !! p).
Proof.
  unfold path_exists.
  destruct (m !! p) as [n|]; split; intros H;
    first [done | by eexists | by destruct H].
Qed.

Lemma dir_ok_is_Dir (m : gmap string node) (p : string) :
  dir_ok m p = true <-> m !! p = Some Dir.
Proof.
  unfold dir_ok, path_exists, path_isdir.
  destruct (m !! p) as [[wr c|]|]; split; intros H; try done.
Qed.

Lemma check_files_true_iff (required : list string) (w : world) :
  fst (check_files required w) = Ret true <->
  Forall (fun f => is_Some (fs w !! f)) required.
Proof.
  rewrite check_files_run. cbn [fst]. rewrite Forall_forall. split.
  - intros Hret f Hf. apply path_exists_is_Some.
    injection Hret as Hall. rewrite forallb_forall in Hall.
    apply Hall. by apply list_elem_of_In.
  - intros Hall. f_equal. apply forallb_forall. intros f Hf.
    apply path_exists_is_Some, Hall. by apply list_elem_of_In.
Qed.

Lemma check_dirs_true_iff (required : list string) (w : world) :
  fst (check_dirs required w) = Ret true <->
  Forall (fun d => fs w !! d = Some Dir) required.
Proof.
  rewrite check_dirs_run. cbn [fst]. rewrite Forall_forall. split.
  - intros Hret d Hd. apply dir_ok_is_Dir.
    injection Hret as Hall. rewrite forallb_forall in Hall.
    apply Hall. by apply list_elem_of_In.
  - intros Hall. f_equal. apply forallb_forall. intros d Hd.
    apply dir_ok_is_Dir, Hall. by apply list_elem_of_In.
Qed.

Lemma check_files_removed (required : list string) (w : world) (item : string) :
  item ∈ required ->
  fst (check_files required (set_fs (delete item) w)) = Ret false.
Proof.
  intros Hitem. rewrite check_files_run. cbn [fst]. f_equal.
  apply not_true_is_false. intros Hall. rewrite forallb_forall in Hall.
  specialize (Hall item (proj1 (list_elem_of_In _ _) Hitem)).
  apply path_exists_is_Some in Hall. cbn in Hall.
  rewrite lookup_delete_eq in Hall. by destruct Hall.
Qed.

Lemma check_dirs_removed (required : list string) (w : world) (item : string) :
  item ∈ required ->
  fst (check_dirs required (set_fs (delete item) w)) = Ret false.
Proof.
  intros Hitem. rewrite check_dirs_run. cbn [fst]. f_equal.
  apply not_true_is_false. intros Hall. rewrite forallb_forall in Hall.
  specialize (Hall item (proj1 (list_elem_of_In _ _) Hitem)).
  apply dir_ok_is_Dir in Hall. cbn in Hall.
  by rewrite lookup_delete_eq in Hall.
Qed.

(** C2. The file checker returns true exactly when every required file
    exists, and the structure checker exactly when every required directory
    exists as a directory; whatever else is there, taking one required item
    away makes the checker concerned return false. *)
Theorem checkers_true_iff_all_present :
  (forall w : world,
      fst (check_vercel_files w) = Ret true <->
      Forall (fun f => is_Some (fs w !! f)) required_files) /\
  (forall w : world,
      fst (check_project_structure w) = Ret true <->
      Forall (fun d => fs w !! d = Some Dir) required_dirs) /\
  (forall (w : world) (item : string),
      item ∈ required_files ->
      fst (check_vercel_files (set_fs (delete item) w)) = Ret false) /\
  (forall (w : world) (item : string),
      item ∈ required_dirs ->
      fst (check_project_structure (set_fs (delete item) w)) = Ret false).
Proof.
  split; [|split; [|split]].
  - intros w. apply check_files_true_iff.
  - intros w. apply check_dirs_true_iff.
  - intros w item. apply check_files_removed.
  - intros w item. apply check_dirs_removed.
Qed.

Lemma dir_ok_delete_plain_file (m : gmap string node) (d x : string) (wr : bool) (c : string) :
  m !! d = Some (File wr c) -> dir_ok (delete d m) x = dir_ok m x.
Proof.
  intros Hfile. unfold dir_ok, path_exists, path_isdir.
  destruct (decide (d = x)) as [<-|Hne].
  - by rewrite lookup_delete_eq, Hfile.
  - by rewrite lookup_delete_ne.
Qed.

Lemma dirs_before_stop_ext (ok1 ok2 : string -> bool) (required : list string) :
  (forall x, ok1 x = ok2 x) ->
  dirs_before_stop ok1 required = dirs_before_stop ok2 required.
Proof.
  intros Hext. induction required as [|d rest IH]; [done|].
  cbn. rewrite Hext, IH. reflexivity.
Qed.

Lemma dir_stopped_at_ext (ok1 ok2 : string -> bool) (required : list string) :
  (forall x, ok1 x = ok2 x) ->
  dir_stopped_at ok1 required = dir_stopped_at ok2 required.
Proof.
  intros Hext. induction required as [|d rest IH]; [done|].
  cbn. rewrite Hext, IH. reflexivity.
Qed.

Lemma dir_stopped_at_not_ok (ok : string -> bool) (required : list string) (d : string) :
  d ∈ required -> ok d = false -> forallb ok required = false.
Proof.
  intros Hd Hok. apply not_true_is_false. intros Hall.
  rewrite forallb_forall in Hall.
  rewrite (Hall d) in Hok; [done | by apply list_elem_of_In].
Qed.

(** C10. A required directory name that is there as a plain file is treated
    as missing: the structure checker returns false, and it returns and prints
    just what it does when nothing has that name. *)
Theorem plain_file_counts_as_missing
    (w : world) (d : string) (wr : bool) (c : string) :
  d ∈ required_dirs ->
  fs w !! d = Some (File wr c) ->
  fst (check_project_structure w) = Ret false /\
  fst (check_project_structure (set_fs (delete d) w)) = Ret false /\
  printed check_project_structure (set_fs (delete d) w)
  = printed check_project_structure w.
Proof.
  intros Hd Hfile. unfold check_project_structure.
  assert (Hsame : forall x, dir_ok (fs (set_fs (delete d) w)) x = dir_ok (fs w) x).
  { intros x. cbn. by apply dir_ok_delete_plain_file with wr c. }
  assert (Hnot : dir_ok (fs w) d = false).
  { apply not_true_is_false. intros Hok. apply dir_ok_is_Dir in Hok. congruence. }
  split; [|split].
  - rewrite check_dirs_run. cbn [fst]. f_equal.
    by apply dir_stopped_at_not_ok with d.
  - by apply check_dirs_removed.
  - rewrite (printed_log _ _ _ _ (check_dirs_run _ _)).
    rewrite (printed_log _ _ _ _ (check_dirs_run _ _)).
    rewrite (dirs_before_stop_ext _ _ _ Hsame).
    by rewrite (dir_stopped_at_ext _ _ _ Hsame).
Qed.

Lemma plain_file_counts_as_missing_witness :
  fst (check_project_structure (World {["app" := File true "boots"]} None [])) = Ret false /\
  fst (check_project_structure
         (set_fs (delete "app") (World {["app" := File true "boots"]} None []))) = Ret false /\
  printed check_project_structure
    (set_fs (delete "app") (World {["app" := File true "boots"]} None []))
  = printed check_project_structure (World {["app" := File true "boots"]} None []).
Proof.
  apply (plain_file_counts_as_missing
           (World {["app" := File true "boots"]} None []) "app" true "boots").
  - apply list_elem_of_here.
  - reflexivity.
Defined.

(** The directories before the stop are there; the one the loop stops at is
    a required one that is not. *)
Lemma dirs_before_stop_ok (ok : string -> bool) (required : list string) (d : string) :
  d ∈ dirs_before_stop ok required -> d ∈ required /\ ok d = true.
Proof.
  induction required as [|x rest IH]; cbn [dirs_before_stop].
  - intros Hd. by apply elem_of_nil in Hd.
  - destruct (ok x) eqn:Hx; [|intros Hd; by apply elem_of_nil in Hd].
    intros [->|Hd]%elem_of_cons.
    + split; [apply list_elem_of_here | exact Hx].
    + destruct (IH Hd) as [Hin Hok]. split; [by apply list_elem_of_further | exact Hok].
Qed.

Lemma dir_stopped_at_missing (ok : string -> bool) (required : list string) (d : string) :
  dir_stopped_at ok required = Some d -> d ∈ required /\ ok d = false.
Proof.
  induction required as [|x rest IH]; cbn [dir_stopped_at]; [discriminate|].
  destruct (ok x) eqn:Hx.
  - intros Hd. destruct (IH Hd) as [Hin Hok].
    split; [by apply list_elem_of_further | exact Hok].
  - intros [= <-]. split; [apply list_elem_of_here | exact Hx].
Qed.

(** C8, as it is worded, fails for the structure checker: with no directory
    at all the loop stops at [app], and [static] gets no line. *)
Lemma one_line_per_item_counterexample :
  ~ one_line_per_item check_project_structure required_dirs (World ∅ None []).
Proof.
  intros Hclaim.
  assert (Hstatic : "static" ∈ required_dirs) by (apply list_elem_of_further, list_elem_of_here).
  specialize (Hclaim "static" Hstatic). vm_compute in Hclaim. discriminate.
Qed.

(** C8, amended. The file checker gives every required file exactly one
    line: its own checkmark line when it is there, the single cross line that
    lists all the missing files when it is not. The structure checker gives
    exactly one line to each required directory up to and including the first
    one that is missing (a checkmark before it, a cross for it) and no line to
    the directories after that one. *)
Theorem checkers_report_lines (w : world) :
  one_line_per_item check_vercel_files required_files w /\
  (forall f, f ∈ required_files ->
     if path_exists (fs w) f
     then present_file_line f ∈ printed check_vercel_files w
     else missing_files_line
            (List.filter (fun g => negb (path_exists (fs w) g)) required_files)
          ∈ printed check_vercel_files w) /\
  (forall d, d ∈ dirs_before_stop (dir_ok (fs w)) required_dirs ->
     lines_naming d (printed check_project_structure w) = 1 /\
     present_dir_line d ∈ printed check_project_structure w) /\
  (forall d, dir_stopped_at (dir_ok (fs w)) required_dirs = Some d ->
     lines_naming d (printed check_project_structure w) = 1 /\
     missing_dir_line d ∈ printed check_project_structure w) /\
  (forall d, d ∈ required_dirs ->
     d ∉ dirs_before_stop (dir_ok (fs w)) required_dirs ->
     dir_stopped_at (dir_ok (fs w)) required_dirs <> Some d ->
     lines_naming d (printed check_project_structure w) = 0).
Proof.
  unfold one_line_per_item, check_vercel_files, check_project_structure.
  rewrite (printed_log _ _ _ _ (check_files_run _ _)).
  rewrite (printed_log _ _ _ _ (check_dirs_run _ _)).
  generalize (path_exists (fs w)) as ex. generalize (dir_ok (fs w)) as ok.
  intros ok ex. split; [|split; [|split; [|split]]].
  - intros f Hf. cbn [required_files List.filter forallb map].
    destruct (ex "vercel.json"), (ex "vercel_main.py"), (ex "requirements-vercel.txt");
      each_item Hf; reflexivity.
  - intros f Hf. cbn [required_files List.filter forallb map].
    destruct (ex "vercel.json") eqn:H1, (ex "vercel_main.py") eqn:H2,
             (ex "requirements-vercel.txt") eqn:H3;
      each_item Hf; rewrite ?H1, ?H2, ?H3; cbn;
      repeat first [apply list_elem_of_here | apply list_elem_of_further].
  - intros d. cbn [required_dirs dirs_before_stop dir_stopped_at map].
    destruct (ok "app"), (ok "static"), (ok "templates"); intros Hd;
      each_item Hd; (split; [reflexivity|]); cbn;
      repeat first [apply list_elem_of_here | apply list_elem_of_further].
  - intros d. cbn [required_dirs dirs_before_stop dir_stopped_at map].
    destruct (ok "app"), (ok "static"), (ok "templates"); intros [= <-];
      (split; [reflexivity|]); cbn;
      repeat first [apply list_elem_of_here | apply list_elem_of_further].
  - intros d Hd. cbn [required_dirs dirs_before_stop dir_stopped_at map].
    destruct (ok "app"), (ok "static"), (ok "templates"); intros Hnot Hstop;
      each_item Hd;
      first [ reflexivity
            | exfalso; apply Hstop; reflexivity
            | exfalso; apply Hnot;
              repeat first [apply list_elem_of_here | apply list_elem_of_further] ].
Qed.

End Checkers.

(** ** [deploy_vercel.py]: the token *)

Section Token.
Import DeployVercel.

(** The encoder on the classic test vectors, and on bytes whose encoding
    needs the URL-safe characters. *)
Example b64encode_Man :
  String.string_of_list_ascii (b64encode ["M"; "a"; "n"]%byte) = "TWFu" /\
  String.string_of_list_ascii (b64encode ["M"; "a"]%byte) = "TWE=" /\
  String.string_of_list_ascii (b64encode ["M"]%byte) = "TQ==".
Proof. repeat split. Qed.

Example urlsafe_token_fb_ff :
  String.string_of_list_ascii (rstrip b64_pad (urlsafe_b64encode [xfb; xff])) = "-_8" /\
  String.string_of_list_ascii (b64encode [xfb; xff]) = "+/8=".
Proof. repeat split. Qed.

Example token_of_zero_bytes : token_of (fun _ => x00) = zero_token.
Proof. reflexivity. Qed.

Lemma list_ind3 {A} (P : list A -> Prop) :
  P [] -> (forall a, P [a]) -> (forall a b, P [a; b]) ->
  (forall a b c l, P l -> P (a :: b :: c :: l)) ->
  forall l, P l.
Proof.
  intros H0 H1 H2 H3 l.
  assert (Hall : P l /\ (forall a, P (a :: l)) /\ (forall a b, P (a :: b :: l))).
  { induction l as [|x l (IH0 & IH1 & IH2)]; [by auto|].
    split; [apply IH1|]. split; [intros a; apply IH2|].
    intros a b. by apply H3. }
  apply Hall.
Qed.

Lemma b64_char_in (n : N) : In (b64_char n) b64_alphabet.
Proof.
  unfold b64_char. apply nth_In.
  change 63%N with (N.ones 6). rewrite N.land_ones.
  change (length b64_alphabet) with (N.to_nat 64).
  change (2 ^ 6)%N with 64%N.
  pose proof (N.mod_upper_bound n 64 ltac:(discriminate)). lia.
Qed.

(** [b64encode] gives characters of the alphabet, then the padding. *)
Lemma b64encode_shape (bs : list byte) :
  exists body,
    b64encode bs = body ++ repeat b64_pad (b64_padding (length bs)) /\
    length body = b64_body_length (length bs) /\
    Forall (fun c => In c b64_alphabet) body.
Proof.
  induction bs as [|b1|b1 b2|b1 b2 b3 rest (body & Henc & Hlen & Hin)] using list_ind3.
  - exists []. split; [reflexivity|]. split; [reflexivity | constructor].
  - eexists [_; _]. split; [reflexivity|]. split; [reflexivity|].
    repeat (constructor; [apply b64_char_in|]). constructor.
  - eexists [_; _; _]. split; [reflexivity|]. split; [reflexivity|].
    repeat (constructor; [apply b64_char_in|]). constructor.
  - eexists (_ :: _ :: _ :: _ :: body).
    cbn [b64encode length b64_padding b64_body_length]. rewrite Henc.
    split; [reflexivity|]. split; [by rewrite Hlen|].
    repeat (constructor; [apply b64_char_in|]). exact Hin.
Qed.

Lemma urlsafe_translate_alphabet (c : ascii) :
  In c b64_alphabet -> is_urlsafe (urlsafe_translate c) = true.
Proof.
  revert c. apply forallb_forall. reflexivity.
Qed.

Lemma is_urlsafe_not (c x : ascii) :
  is_urlsafe x = false -> is_urlsafe c = true -> Ascii.eqb c x = false.
Proof.
  intros Hx Hc. destruct (Ascii.eqb_spec c x) as [->|]; congruence.
Qed.

Lemma rstrip_pad (c : ascii) (k : nat) : rstrip c (repeat c k) = [].
Proof.
  induction k as [|k IH]; [done|]. cbn. by rewrite IH, Ascii.eqb_refl.
Qed.

Lemma rstrip_body_pad (c : ascii) (body : list ascii) (k : nat) :
  Forall (fun x => Ascii.eqb x c = false) body ->
  rstrip c (body ++ repeat c k) = body.
Proof.
  induction 1 as [|x body Hx _ IH]; cbn [app rstrip].
  - apply rstrip_pad.
  - rewrite IH. destruct body; [by rewrite Hx | done].
Qed.

Lemma translate_pad (k : nat) :
  map urlsafe_translate (repeat b64_pad k) = repeat b64_pad k.
Proof.
  induction k as [|k IH]; [done|]. cbn [repeat map]. by rewrite IH.
Qed.

(** What [token_urlsafe] makes of the bytes: the translated body of the
    encoding, with the padding gone. *)
Lemma token_chars (bs : list byte) :
  exists chars,
    rstrip b64_pad (urlsafe_b64encode bs) = chars /\
    length chars = b64_body_length (length bs) /\
    Forall (fun c => is_urlsafe c = true) chars.
Proof.
  destruct (b64encode_shape bs) as (body & Henc & Hlen & Hin).
  exists (map urlsafe_translate body).
  assert (Hsafe : Forall (fun c => is_urlsafe c = true) (map urlsafe_translate body)).
  { apply Forall_map. eapply Forall_impl; [exact Hin|].
    intros c Hc. by apply urlsafe_translate_alphabet. }
  split; [|split; [by rewrite length_map|exact Hsafe]].
  unfold urlsafe_b64encode. rewrite Henc, map_app.
  rewrite translate_pad. apply rstrip_body_pad.
  eapply Forall_impl; [exact Hsafe|].
  intros c Hc. by apply is_urlsafe_not.
Qed.

Lemma length_string_of_list_ascii (l : list ascii) :
  String.length (String.string_of_list_ascii l) = length l.
Proof. induction l as [|c l IH]; [done|]. cbn. by rewrite IH. Qed.

Lemma has_char_string_of_list_ascii (x : ascii) (l : list ascii) :
  Forall (fun c => Ascii.eqb c x = false) l ->
  has_char x (String.string_of_list_ascii l) = false.
Proof.
  induction 1 as [|c l Hc _ IH]; [done|]. cbn. by rewrite Hc, IH.
Qed.

(** The token of 32 bytes: 43 characters, none of them a newline. *)
Lemma token_of_facts (f : nat -> byte) :
  String.length (token_of f) = 43 /\
  truthy_str (token_of f) = true /\
  has_char "010" (token_of f) = false.
Proof.
  unfold token_of.
  destruct (token_chars (map f (seq 0 32))) as (chars & -> & Hlen & Hsafe).
  rewrite length_map, length_seq in Hlen. cbn in Hlen.
  split; [by rewrite length_string_of_list_ascii|]. split.
  - destruct chars; [discriminate | reflexivity].
  - apply has_char_string_of_list_ascii. eapply Forall_impl; [exact Hsafe|].
    intros c Hc. by apply is_urlsafe_not.
Qed.

End Token.

(** ** [deploy_vercel.py]: the secret generator *)

Section SecretGenerator.
Import DeployVercel.

Example splitlines_examples :
  splitlines ("a" +:+ nl +:+ nl +:+ "b") = ["a"; ""; "b"] /\
  splitlines ("a" +:+ nl) = ["a"] /\
  splitlines "" = [] /\
  splitlines nl = [""].
Proof. repeat split. Qed.

Lemma append_assoc (a b c : string) : (a +:+ b) +:+ c = a +:+ (b +:+ c).
Proof.
  induction a as [|x a IH]; [done|].
  change (String x ((a +:+ b) +:+ c) = String x (a +:+ (b +:+ c))).
  by rewrite IH.
Qed.

Lemma splitlines_line (s rest : string) :
  has_char "010" s = false ->
  splitlines (s +:+ nl +:+ rest) = s :: splitlines rest.
Proof.
  induction s as [|c s IH]; intros Hs; [done|].
  cbn in Hs. apply orb_false_iff in Hs as [Hc Hs].
  change (String c s +:+ nl +:+ rest) with (String c (s +:+ nl +:+ rest)).
  cbn [splitlines]. by rewrite Hc, (IH Hs).
Qed.

Lemma has_char_append (c : ascii) (a b : string) :
  has_char c (a +:+ b) = has_char c a || has_char c b.
Proof.
  induction a as [|x a IH]; [done|].
  change (String x a +:+ b) with (String x (a +:+ b)). cbn [has_char].
  by rewrite IH, orb_assoc.
Qed.

(** The three lines the generator writes. *)
Lemma secret_file_lines (tok : string) :
  has_char "010" tok = false ->
  splitlines (secret_file_content tok)
  = ["SECRET_KEY=" +:+ tok; "ENVIRONMENT=production"; "DEBUG=false"].
Proof.
  intros Htok. unfold secret_file_content.
  rewrite !append_assoc, <- (append_assoc "SECRET_KEY=" tok).
  rewrite splitlines_line; [|by rewrite has_char_append, Htok].
  reflexivity.
Qed.

Lemma token_urlsafe_run (w : world) :
  token_urlsafe 32 w =
  match entropy w with
  | Some f => (Ret (token_of f), w)
  | None => (Raise urandom_error, w)
  end.
Proof.
  unfold token_urlsafe, token_bytes, os_urandom, bind.
  by destruct (entropy w).
Qed.

Lemma open_w_run (p : string) (w : world) :
  open_w p w =
  match open_error (fs w) p with
  | Some e => (Raise e, w)
  | None => (Ret p, set_fs (insert p (File true "")) w)
  end.
Proof. reflexivity. Qed.

Lemma write_run (f s c : string) (wr : bool) (w : world) :
  fs w !! f = Some (File wr c) ->
  write f s w = (Ret tt, set_fs (insert f (File wr (c +:+ s))) w).
Proof.
  intros Hf. unfold write, modify, set_fs. by rewrite Hf.
Qed.

Lemma set_fs_insert_twice (p : string) (n1 n2 : node) (w : world) :
  set_fs (insert p n2) (set_fs (insert p n1) w) = set_fs (insert p n2) w.
Proof. unfold set_fs. cbn. by rewrite insert_insert_eq. Qed.

Lemma set_fs_log (g : gmap string node -> gmap string node) (w : world) (ls : list string) :
  set_fs g (log w ls) = log (set_fs g w) ls.
Proof. reflexivity. Qed.

(** Opening [p] for writing and writing [parts] one after the other leaves
    the file with their concatenation, whatever was there. *)
Lemma write_all_run (p : string) (w : world) (c s : string) :
  write p s (set_fs (insert p (File true c)) w)
  = (Ret tt, set_fs (insert p (File true (c +:+ s))) w).
Proof.
  rewrite (write_run p s c true); [|apply lookup_insert_eq].
  by rewrite set_fs_insert_twice.
Qed.

(** The [with open(...) as f:] block of the generator. *)
Lemma write_secret_run (tok : string) (w : world) :
  (let* f := open_w secret_key_file in
   write f ("SECRET_KEY=" +:+ tok +:+ nl) >>
   write f ("ENVIRONMENT=production" +:+ nl) >>
   write f ("DEBUG=false" +:+ nl)) w =
  match open_error (fs w) secret_key_file with
  | Some e => (Raise e, w)
  | None =>
      (Ret tt, set_fs (insert secret_key_file (File true (secret_file_content tok))) w)
  end.
Proof.
  unfold bind at 1. rewrite open_w_run.
  destruct (open_error (fs w) secret_key_file) as [e|]; [reflexivity|].
  rewrite (bind_returns _ _ _ _ _ (write_all_run _ _ _ _)).
  rewrite (bind_returns _ _ _ _ _ (write_all_run _ _ _ _)).
  rewrite write_all_run. unfold secret_file_content.
  by rewrite !append_assoc.
Qed.

(** A run of the generator, case by case. It never raises. *)
Lemma generate_secret_key_run (w : world) :
  generate_secret_key w =
  match entropy w with
  | None =>
      (Ret None,
       log w [nl +:+ "🔑 Generating secure secret key..."; error_line urandom_error])
  | Some f =>
      match open_error (fs w) secret_key_file with
      | Some e =>
          (Ret None,
           log w [nl +:+ "🔑 Generating secure secret key...";
                  "✅ Generated SECRET_KEY: " +:+ token_of f;
                  error_line e])
      | None =>
          (Ret (Some (token_of f)),
           log (set_fs (insert secret_key_file
                          (File true (secret_file_content (token_of f)))) w)
               [nl +:+ "🔑 Generating secure secret key...";
                "✅ Generated SECRET_KEY: " +:+ token_of f;
                "📝 Secret key saved to 'vercel_secret_key.txt'";
                "💡 Copy these environment variables to Vercel dashboard"])
      end
  end.
Proof.
  unfold generate_secret_key.
  rewrite (bind_returns _ _ _ _ _ (print_run _ w)).
  unfold try_except. unfold bind at 1. rewrite token_urlsafe_run. cbn [entropy log].
  destruct (entropy w) as [f|]; cbv beta iota.
  - rewrite (bind_returns _ _ _ _ _ (print_run _ _)).
    unfold bind at 1. rewrite write_secret_run. cbn [fs log].
    destruct (open_error (fs w) secret_key_file) as [e|]; cbv beta iota.
    + rewrite (bind_returns _ _ _ _ _ (print_run _ _)). unfold ret.
      by rewrite !log_log.
    + rewrite (bind_returns _ _ _ _ _ (print_run _ _)).
      rewrite (bind_returns _ _ _ _ _ (print_run _ _)). unfold ret.
      by rewrite !set_fs_log, !log_log.
  - rewrite (bind_returns _ _ _ _ _ (print_run _ _)). unfold ret.
    by rewrite !log_log.
Qed.

(** C7. The generator never lets an exception out. When making the token
    raises, or opening the file for writing is refused, it logs that error
    and returns [None]; when neither happens it returns the token. *)
Theorem generate_secret_key_catches (w : world) :
  match fst (token_urlsafe 32 w) with
  | Raise e =>
      fst (generate_secret_key w) = Ret None /\
      last (stdout (snd (generate_secret_key w))) = Some (error_line e)
  | Ret tok =>
      match fst (open_w secret_key_file w) with
      | Raise e =>
          fst (generate_secret_key w) = Ret None /\
          last (stdout (snd (generate_secret_key w))) = Some (error_line e)
      | Ret _ => fst (generate_secret_key w) = Ret (Some tok)
      end
  end.
Proof.
  rewrite generate_secret_key_run, token_urlsafe_run, open_w_run.
  destruct (entropy w) as [f|]; cbn [fst snd].
  - destruct (open_error (fs w) secret_key_file) as [e|]; cbn [fst snd];
      [split; [reflexivity|] | reflexivity].
    cbn [stdout log]. by rewrite last_app.
  - split; [reflexivity|]. cbn [stdout log]. by rewrite last_app.
Qed.

(** C4, as it is worded, fails: a successful run leaves three lines in the
    file, not two. *)
Lemma secret_file_two_lines_counterexample :
  fst (generate_secret_key zero_entropy_world) = Ret (Some zero_token) /\
  secret_file_line_count (snd (generate_secret_key zero_entropy_world)) = Some 3 /\
  secret_file_line_count (snd (generate_secret_key zero_entropy_world)) <> Some 2.
Proof.
  assert (Hcount : secret_file_line_count (snd (generate_secret_key zero_entropy_world))
                   = Some 3) by (vm_compute; reflexivity).
  split; [vm_compute; reflexivity|]. split; [exact Hcount|].
  rewrite Hcount. discriminate.
Qed.

(** C4, amended. After a successful run the file holds exactly three lines:
    [SECRET_KEY=] followed by the token that was returned, then
    [ENVIRONMENT=production], then [DEBUG=false]; whatever the file held
    before is gone. *)
Theorem secret_file_three_lines (w w' : world) (tok : string) :
  generate_secret_key w = (Ret (Some tok), w') ->
  fs w' !! secret_key_file = Some (File true (secret_file_content tok)) /\
  file_lines w' secret_key_file
  = Some ["SECRET_KEY=" +:+ tok; "ENVIRONMENT=production"; "DEBUG=false"].
Proof.
  rewrite generate_secret_key_run.
  destruct (entropy w) as [f|]; [|discriminate].
  destruct (open_error (fs w) secret_key_file) as [e|]; [discriminate|].
  intros [= <- <-].
  assert (Hfile : fs (log (set_fs (insert secret_key_file
                    (File true (secret_file_content (token_of f)))) w)
                    [nl +:+ "🔑 Generating secure secret key...";
                     "✅ Generated SECRET_KEY: " +:+ token_of f;
                     "📝 Secret key saved to 'vercel_secret_key.txt'";
                     "💡 Copy these environment variables to Vercel dashboard"])
                  !! secret_key_file
                  = Some (File true (secret_file_content (token_of f)))).
  { cbn [fs log set_fs]. apply lookup_insert_eq. }
  split; [exact Hfile|].
  unfold file_lines. rewrite Hfile. f_equal.
  apply secret_file_lines, token_of_facts.
Qed.

Lemma secret_file_three_lines_witness :
  fs (snd (generate_secret_key zero_entropy_world)) !! secret_key_file
  = Some (File true (secret_file_content zero_token)) /\
  file_lines (snd (generate_secret_key zero_entropy_world)) secret_key_file
  = Some ["SECRET_KEY=" +:+ zero_token; "ENVIRONMENT=production"; "DEBUG=false"].
Proof.
  apply (secret_file_three_lines zero_entropy_world).
  vm_compute. reflexivity.
Defined.

End SecretGenerator.

(** ** [deploy_vercel.py]: the checklist writer *)

Section Checklist.
Import DeployVercel.

Lemma prefix_spec (p s : string) :
  String.prefix p s = true <-> exists post, s = p +:+ post.
Proof.
  revert s. induction p as [|a p IH]; intros s.
  - split; [intros _; by exists s | by destruct s].
  - destruct s as [|b s]; cbn [String.prefix].
    + split; [done | intros [post Hpost]; discriminate].
    + destruct (ascii_dec a b) as [<-|Hne].
      * rewrite IH. split; intros [post Hpost]; exists post.
        -- by rewrite Hpost.
        -- by injection Hpost.
      * split; [done | intros [post Hpost]; injection Hpost; congruence].
Qed.

(** [contains] finds exactly the substrings. *)
Lemma contains_spec (needle hay : string) :
  contains needle hay = true <-> exists pre post, hay = pre +:+ needle +:+ post.
Proof.
  induction hay as [|c hay IH]; cbn [contains]; rewrite orb_true_iff, prefix_spec.
  - split.
    + intros [[post Hpost]|]; [|done]. by exists "", post.
    + intros (pre & post & Hhay). left.
      destruct pre; [by exists post | discriminate].
  - rewrite IH. split.
    + intros [[post Hpost]|(pre & post & Hhay)].
      * by exists "", post.
      * exists (String c pre), post. by rewrite Hhay.
    + intros (pre & post & Hhay). destruct pre as [|x pre].
      * left. by exists post.
      * right. exists pre, post. by injection Hhay.
Qed.

(** A run of the checklist writer: the refusal of [open] is not caught. *)
Lemma create_deployment_checklist_run (w : world) :
  create_deployment_checklist w =
  match open_error (fs w) checklist_file with
  | Some e => (Raise e, log w [nl +:+ "📋 Creating deployment checklist..."])
  | None =>
      (Ret tt,
       log (set_fs (insert checklist_file (File true checklist_content)) w)
           [nl +:+ "📋 Creating deployment checklist...";
            "✅ Deployment checklist created: 'VERCEL-CHECKLIST.md'"])
  end.
Proof.
  unfold create_deployment_checklist.
  rewrite (bind_returns _ _ _ _ _ (print_run _ w)).
  unfold bind at 1. unfold bind at 1. rewrite open_w_run. cbn [fs log].
  destruct (open_error (fs w) checklist_file) as [e|]; [reflexivity|].
  rewrite write_all_run, print_run.
  by rewrite !set_fs_log, !log_log.
Qed.

(** C9. After a run of the checklist writer that returns, the checklist file
    is there with the fixed text, whatever it held before, and the text has
    the three section headers. *)
Theorem checklist_written (w w' : world) :
  create_deployment_checklist w = (Ret tt, w') ->
  fs w' !! checklist_file = Some (File true checklist_content) /\
  contains "## ✅ Pre-Deployment" checklist_content = true /\
  contains "## 🏗️ Deployment Steps" checklist_content = true /\
  contains "## 🧪 Post-Deployment Testing" checklist_content = true.
Proof.
  rewrite create_deployment_checklist_run.
  destruct (open_error (fs w) checklist_file) as [e|]; [discriminate|].
  intros [= <-]. split.
  - cbn [fs log set_fs]. apply lookup_insert_eq.
  - repeat split; vm_compute; reflexivity.
Qed.

Lemma checklist_written_witness :
  fs (snd (create_deployment_checklist
             (World {[checklist_file := File true "old notes"]} None [])))
    !! checklist_file = Some (File true checklist_content) /\
  contains "## ✅ Pre-Deployment" checklist_content = true /\
  contains "## 🏗️ Deployment Steps" checklist_content = true /\
  contains "## 🧪 Post-Deployment Testing" checklist_content = true.
Proof.
  apply (checklist_written (World {[checklist_file := File true "old notes"]} None [])).
  vm_compute. reflexivity.
Defined.

End Checklist.

(** ** [deploy_vercel.py]: [main] and the exit status *)

Section Main.
Import DeployVercel.

Lemma open_error_other (m : gmap string node) (p q : string) (n : node) :
  p <> q -> open_error (<[p := n]> m) q = open_error m q.
Proof. intros Hne. unfold open_error. by rewrite lookup_insert_ne. Qed.

(** The generator succeeds exactly when there is entropy and the secret file
    can be opened for writing; its token is then truthy. *)
Lemma generate_secret_key_fst (w : world) :
  fst (generate_secret_key w) =
  Ret (match entropy w, open_error (fs w) secret_key_file with
       | Some f, None => Some (token_of f)
       | _, _ => None
       end).
Proof.
  rewrite generate_secret_key_run.
  destruct (entropy w) as [f|]; [destruct (open_error (fs w) secret_key_file)|];
    reflexivity.
Qed.

(** Started with more on the console, the generator does the same. *)
Lemma generate_secret_key_framed (w : world) (ls : list string) :
  generate_secret_key (log w ls) =
  (fst (generate_secret_key w),
   World (fs (snd (generate_secret_key w))) (entropy w)
         (stdout w ++ ls ++ printed generate_secret_key w)).
Proof.
  unfold printed. rewrite !generate_secret_key_run.
  destruct w as [m ent out]. unfold log, set_fs. cbn [entropy fs stdout].
  destruct ent as [f|]; [destruct (open_error m secret_key_file)|];
    cbn [fst snd fs entropy stdout];
    by rewrite drop_app_length, <- app_assoc.
Qed.

Lemma generate_secret_key_fs (w : world) :
  fs (snd (generate_secret_key w)) =
  match entropy w, open_error (fs w) secret_key_file with
  | Some f, None =>
      <[secret_key_file := File true (secret_file_content (token_of f))]> (fs w)
  | _, _ => fs w
  end.
Proof.
  rewrite generate_secret_key_run.
  destruct (entropy w) as [f|]; [destruct (open_error (fs w) secret_key_file)|];
    reflexivity.
Qed.

Lemma world_eq (m : gmap string node) (ent : option (nat -> byte)) (o1 o2 : list string) :
  o1 = o2 -> World m ent o1 = World m ent o2.
Proof. by intros ->. Qed.

(** A run of [main], step by step. Each check prints what it prints when
    run on its own; the run stops at the first check that fails. *)
Lemma main_run (w : world) :
  main w =
  let out1 := banner ++ printed check_vercel_files w in
  if negb (forallb (path_exists (fs w)) required_files) then
    (Ret false,
     log w (out1 ++ [nl +:+ "❌ Please create missing Vercel files before deployment"]))
  else
  let out2 := out1 ++ printed check_project_structure w in
  if negb (forallb (dir_ok (fs w)) required_dirs) then
    (Ret false,
     log w (out2 ++ [nl +:+ "❌ Please fix project structure before deployment"]))
  else
  let out3 := out2 ++ printed generate_secret_key w in
  match entropy w, open_error (fs w) secret_key_file with
  | Some f, None =>
      let w3 := set_fs (insert secret_key_file
                          (File true (secret_file_content (token_of f)))) w in
      match open_error (fs w) checklist_file with
      | Some e =>
          (Raise e, log w3 (out3 ++ [nl +:+ "📋 Creating deployment checklist..."]))
      | None =>
          (Ret true,
           log (set_fs (insert checklist_file (File true checklist_content)) w3)
               (out3 ++
                [nl +:+ "📋 Creating deployment checklist...";
                 "✅ Deployment checklist created: 'VERCEL-CHECKLIST.md'"] ++
                closing_lines))
      end
  | _, _ => (Ret false, log w (out3 ++ [nl +:+ "❌ Failed to generate secret key"]))
  end.
Proof.
  unfold main.
  rewrite (bind_returns _ _ _ _ _ (print_run _ w)).
  rewrite (bind_returns _ _ _ _ _ (print_run _ _)).
  rewrite log_log. change ([_] ++ [_]) with banner.
  unfold bind at 1. unfold check_vercel_files at 1. rewrite check_files_run.
  cbv zeta.
  unfold check_vercel_files. rewrite (printed_log _ _ _ _ (check_files_run _ w)).
  cbn [fs log]. rewrite log_log.
  destruct (forallb (path_exists (fs w)) required_files); cbn [negb].
  2:{ rewrite (bind_returns _ _ _ _ _ (print_run _ _)). unfold ret.
      by rewrite log_log. }
  set (out1 := banner ++ _).
  unfold bind at 1. unfold check_project_structure at 1. rewrite check_dirs_run.
  unfold check_project_structure. rewrite (printed_log _ _ _ _ (check_dirs_run _ w)).
  cbn [fs log]. rewrite log_log.
  destruct (forallb (dir_ok (fs w)) required_dirs); cbn [negb].
  2:{ rewrite (bind_returns _ _ _ _ _ (print_run _ _)). unfold ret.
      by rewrite log_log. }
  set (out2 := out1 ++ _).
  unfold bind at 1. rewrite generate_secret_key_framed, generate_secret_key_fst.
  rewrite generate_secret_key_fs.
  set (out3 := printed generate_secret_key w).
  destruct (entropy w) as [f|] eqn:Hent;
    [destruct (open_error (fs w) secret_key_file) as [e|] eqn:Hopen|];
    cbn [truthy_opt_str negb].
  2:{ rewrite (proj1 (proj2 (token_of_facts f))). cbn [negb].
      unfold bind at 1. rewrite create_deployment_checklist_run. cbn [fs].
      rewrite open_error_other by done.
      destruct (open_error (fs w) checklist_file) as [e|].
      - unfold log, set_fs. cbn [fs entropy stdout]. rewrite Hent.
        f_equal. apply world_eq. by rewrite <- !app_assoc.
      - rewrite !(bind_returns _ _ _ _ _ (print_run _ _)). unfold ret.
        rewrite !log_log. unfold log, set_fs. cbn [fs entropy stdout]. rewrite Hent.
        f_equal. apply world_eq. by rewrite <- !app_assoc. }
  all: rewrite (bind_returns _ _ _ _ _ (print_run _ _)); unfold ret;
    unfold log; cbn [fs entropy stdout]; rewrite <- Hent; f_equal;
    destruct w as [m ent out]; cbn [fs entropy stdout] in *;
    apply world_eq; by rewrite <- !app_assoc.
Qed.

Lemma check_vercel_files_fst (w : world) :
  fst (check_vercel_files w) = Ret (forallb (path_exists (fs w)) required_files).
Proof. unfold check_vercel_files. by rewrite check_files_run. Qed.

Lemma check_project_structure_fst (w : world) :
  fst (check_project_structure w) = Ret (forallb (dir_ok (fs w)) required_dirs).
Proof. unfold check_project_structure. by rewrite check_dirs_run. Qed.

(** The three checks succeed exactly when the three things they look at are
    in order. *)
Lemma checks_succeed_iff (w : world) :
  checks_succeed w <->
  forallb (path_exists (fs w)) required_files = true /\
  forallb (dir_ok (fs w)) required_dirs = true /\
  exists f, entropy w = Some f /\ open_error (fs w) secret_key_file = None.
Proof.
  unfold checks_succeed, check_vercel_files, check_project_structure.
  rewrite check_files_run, check_dirs_run, generate_secret_key_fst. cbn [fst].
  split.
  - intros (Hf & Hd & tok & Hgen). split; [congruence|]. split; [congruence|].
    destruct (entropy w) as [f|]; [|discriminate].
    destruct (open_error (fs w) secret_key_file); [discriminate|]. by exists f.
  - intros (-> & -> & f & -> & ->). repeat split. by exists (token_of f).
Qed.

Lemma checklist_returns_iff (w : world) :
  fst (create_deployment_checklist w) = Ret tt <->
  open_error (fs w) checklist_file = None.
Proof.
  rewrite create_deployment_checklist_run.
  by destruct (open_error (fs w) checklist_file).
Qed.

(** The exit status, read off the working directory and the entropy source. *)
Lemma exit_status_fst (w : world) :
  fst (exit_status w) =
  match forallb (path_exists (fs w)) required_files,
        forallb (dir_ok (fs w)) required_dirs,
        entropy w,
        open_error (fs w) secret_key_file,
        open_error (fs w) checklist_file
  with
  | true, true, Some _, None, None => 0
  | _, _, _, _, _ => 1
  end.
Proof.
  unfold exit_status. rewrite main_run. cbv zeta.
  destruct (forallb (path_exists (fs w)) required_files); [|reflexivity].
  destruct (forallb (dir_ok (fs w)) required_dirs); [|reflexivity].
  destruct (entropy w); [|reflexivity].
  destruct (open_error (fs w) secret_key_file); [reflexivity|].
  destruct (open_error (fs w) checklist_file); reflexivity.
Qed.

(** C5, as it is worded, fails: with a directory where the checklist is to be
    written, the three checks succeed and the process still ends with 1. *)
Lemma exit_status_counterexample :
  checks_succeed checklist_blocked_world /\
  fst (exit_status checklist_blocked_world) = 1 /\
  ~ (fst (exit_status checklist_blocked_world) = 0 <->
     checks_succeed checklist_blocked_world).
Proof.
  assert (Hchecks : checks_succeed checklist_blocked_world).
  { split; [vm_compute; reflexivity|]. split; [vm_compute; reflexivity|].
    exists zero_token. vm_compute. reflexivity. }
  assert (Hexit : fst (exit_status checklist_blocked_world) = 1)
    by (vm_compute; reflexivity).
  split; [exact Hchecks|]. split; [exact Hexit|].
  intros [_ Hzero]. rewrite (Hzero Hchecks) in Hexit. discriminate.
Qed.

(** C5, amended. The exit status is 0 exactly when the file check, the
    structure check and the secret generation succeed and the checklist is
    then written; otherwise it is 1. When one of the three checks fails the
    run stops there: nothing is written, and after the output of the checks
    run so far only the message of the failure is printed. *)
Theorem exit_status_cases (w : world) :
  (fst (exit_status w) = 0 <->
   checks_succeed w /\ fst (create_deployment_checklist w) = Ret tt) /\
  (fst (exit_status w) = 0 \/ fst (exit_status w) = 1) /\
  (~ checks_succeed w -> fst (exit_status w) = 1) /\
  (fst (check_vercel_files w) = Ret false ->
   snd (exit_status w) =
   log w (banner ++ printed check_vercel_files w ++
          [nl +:+ "❌ Please create missing Vercel files before deployment"])) /\
  (fst (check_vercel_files w) = Ret true ->
   fst (check_project_structure w) = Ret false ->
   snd (exit_status w) =
   log w (banner ++ printed check_vercel_files w ++
          printed check_project_structure w ++
          [nl +:+ "❌ Please fix project structure before deployment"])) /\
  (fst (check_vercel_files w) = Ret true ->
   fst (check_project_structure w) = Ret true ->
   fst (generate_secret_key w) = Ret None ->
   snd (exit_status w) =
   log w (banner ++ printed check_vercel_files w ++
          printed check_project_structure w ++
          printed generate_secret_key w ++
          [nl +:+ "❌ Failed to generate secret key"])).
Proof.
  split; [|split; [|split; [|split; [|split]]]].
  - rewrite checks_succeed_iff, checklist_returns_iff, exit_status_fst. split.
    + destruct (forallb (path_exists (fs w)) required_files); [|discriminate].
      destruct (forallb (dir_ok (fs w)) required_dirs); [|discriminate].
      destruct (entropy w) as [f|]; [|discriminate].
      destruct (open_error (fs w) secret_key_file); [discriminate|].
      destruct (open_error (fs w) checklist_file); [discriminate|].
      intros _. repeat split. by exists f.
    + by intros ((-> & -> & f & -> & ->) & ->).
  - rewrite exit_status_fst.
    destruct (forallb (path_exists (fs w)) required_files); [|by right].
    destruct (forallb (dir_ok (fs w)) required_dirs); [|by right].
    destruct (entropy w); [|by right].
    destruct (open_error (fs w) secret_key_file); [by right|].
    destruct (open_error (fs w) checklist_file); [by right | by left].
  - rewrite checks_succeed_iff, exit_status_fst. intros Hnot.
    destruct (forallb (path_exists (fs w)) required_files); [|reflexivity].
    destruct (forallb (dir_ok (fs w)) required_dirs); [|reflexivity].
    destruct (entropy w) as [f|]; [|reflexivity].
    destruct (open_error (fs w) secret_key_file); [reflexivity|].
    exfalso. apply Hnot. repeat split. by exists f.
  - unfold exit_status. rewrite main_run. cbv zeta.
    rewrite check_vercel_files_fst. intros Hf.
    replace (forallb (path_exists (fs w)) required_files) with false by congruence.
    cbn [negb snd]. by rewrite <- app_assoc.
  - unfold exit_status. rewrite main_run. cbv zeta.
    rewrite check_vercel_files_fst, check_project_structure_fst. intros Hf Hd.
    replace (forallb (path_exists (fs w)) required_files) with true by congruence.
    replace (forallb (dir_ok (fs w)) required_dirs) with false by congruence.
    cbn [negb snd]. by rewrite <- !app_assoc.
  - unfold exit_status. rewrite main_run. cbv zeta.
    rewrite check_vercel_files_fst, check_project_structure_fst.
    rewrite generate_secret_key_fst. intros Hf Hd.
    replace (forallb (path_exists (fs w)) required_files) with true by congruence.
    replace (forallb (dir_ok (fs w)) required_dirs) with true by congruence.
    cbn [negb].
    destruct (entropy w) as [f|]; [destruct (open_error (fs w) secret_key_file)|];
      intros [=]; cbn [snd]; by rewrite <- !app_assoc.
Qed.

End Main.

(** ** [vercel_main.py] *)

Section Application.
Import VercelMain.
Context {E : Type}.
Variable test_connection : M (world E) pyval.
Variable init_db : M (world E) pyval.

Lemma app_print_run (s : string) (w : world E) : print s w = (Ret tt, log w [s]).
Proof. reflexivity. Qed.

Lemma app_log_log (w : world E) (l1 l2 : list string) :
  log (log w l1) l2 = log w (l1 ++ l2).
Proof. unfold log. cbn. by rewrite <- app_assoc. Qed.

(** C1. The health handler never raises. Its [status] is [healthy] when the
    connectivity check returns a truthy value, [warning] when it returns a
    falsy one, and [error] when the check raises; in that last case the text
    of the exception is the [message] of the payload. The handler adds no
    effect of its own to those of the check. *)
Theorem health_check_status (w : world E) :
  exists payload,
    health_check test_connection w = (Ret payload, snd (test_connection w)) /\
    match fst (test_connection w) with
    | Ret v =>
        field "status" payload
        = Some (JStr (if truthy v then "healthy" else "warning")) /\
        field "message" payload = None
    | Raise e =>
        field "status" payload = Some (JStr "error") /\
        field "message" payload = Some (JStr (str e))
    end /\
    (field "status" payload = Some (JStr "healthy") \/
     field "status" payload = Some (JStr "warning") \/
     field "status" payload = Some (JStr "error")).
Proof.
  unfold health_check, try_except, bind.
  destruct (test_connection w) as [[v|e] w1]; cbn [fst snd].
  - destruct (truthy v); eexists; (split; [reflexivity|]); cbn; auto.
  - eexists. split; [reflexivity|]. cbn. auto.
Qed.

(** C3, amended. The startup hook raises nothing of its own. When the
    connectivity check returns a falsy value the hook logs that and returns;
    when it returns a truthy one the hook calls the schema initialisation
    and, if that returns, logs its outcome and returns. An exception of
    either helper is not caught: it leaves the hook as it came. *)
Theorem startup_event_outcome (w : world E) :
  match test_connection
          (log w ["🚀 Starting Jubair Boot House on Vercel...";
                  "💻 Vercel mode: Using SQLite database"]) with
  | (Raise e, w1) => startup_event test_connection init_db w = (Raise e, w1)
  | (Ret connected, w1) =>
      if truthy connected then
        match init_db (log w1 ["✅ SQLite connection established"]) with
        | (Raise e, w2) => startup_event test_connection init_db w = (Raise e, w2)
        | (Ret created, w2) =>
            startup_event test_connection init_db w =
            (Ret tt,
             log w2 [if truthy created then "✅ SQLite tables verified/created"
                     else "⚠️  SQLite table initialization had issues"])
        end
      else
        startup_event test_connection init_db w =
        (Ret tt,
         log w1 ["❌ SQLite connection failed - app will continue with limited functionality"])
  end.
Proof.
  assert (Hstart : startup_event test_connection init_db w =
            bind test_connection
              (fun connected =>
                 if truthy connected then
                   print "✅ SQLite connection established" >>
                   let* created := init_db in
                   if truthy created then print "✅ SQLite tables verified/created"
                   else print "⚠️  SQLite table initialization had issues"
                 else
                   print "❌ SQLite connection failed - app will continue with limited functionality")
              (log w ["🚀 Starting Jubair Boot House on Vercel...";
                      "💻 Vercel mode: Using SQLite database"])).
  { unfold startup_event.
    rewrite (bind_returns _ _ _ _ _ (app_print_run _ w)).
    rewrite (bind_returns _ _ _ _ _ (app_print_run _ _)).
    by rewrite app_log_log. }
  rewrite Hstart. clear Hstart.
  destruct (test_connection _) as [[connected|e] w1] eqn:Hconn.
  - rewrite (bind_returns _ _ _ _ _ Hconn).
    destruct (truthy connected); [|reflexivity].
    rewrite (bind_returns _ _ _ _ _ (app_print_run _ _)).
    destruct (init_db _) as [[created|e] w2] eqn:Hinit.
    + rewrite (bind_returns _ _ _ _ _ Hinit). by destruct (truthy created).
    + by rewrite (bind_raises _ _ _ _ _ Hinit).
  - by rewrite (bind_raises _ _ _ _ _ Hconn).
Qed.

End Application.

Section Routes.
Import VercelMain.

(** C3, as it is worded, fails: when the connectivity check raises, so does
    the startup hook. *)
Lemma startup_event_counterexample :
  startup_event db_down (ret (PyBool true)) (World tt [])
  = (Raise (Exn "OperationalError" "unable to open database file"),
     World tt ["🚀 Starting Jubair Boot House on Vercel...";
               "💻 Vercel mode: Using SQLite database"]) /\
  returns (fst (startup_event db_down (ret (PyBool true)) (World tt []))) = false.
Proof. split; reflexivity. Qed.

(** C6. Whatever the request, the three redirect handlers answer with a
    redirect to their fixed target, and they are what a GET of [/catalog],
    [/admin/dashboard] and [/admin/users] is served by. *)
Theorem redirect_routes (req : request) :
  (redirect_target (catalog_redirect req) = Some "/products/" /\
   redirect_target (admin_dashboard_redirect req) = Some "/products/admin/dashboard" /\
   redirect_target (admin_users_redirect req) = Some "/auth/admin/users") /\
  (method req = "GET" ->
   (path req = "/catalog" ->
    serve_page req = Some (RedirectResponse "/products/")) /\
   (path req = "/admin/dashboard" ->
    serve_page req = Some (RedirectResponse "/products/admin/dashboard")) /\
   (path req = "/admin/users" ->
    serve_page req = Some (RedirectResponse "/auth/admin/users"))).
Proof.
  split; [by repeat split|].
  intros Hget. unfold serve_page. rewrite Hget.
  repeat split; intros ->; reflexivity.
Qed.

End Routes.

(** * Further properties *)

(** ** [deploy_vercel.py]: what the checkers leave alone *)

Section CheckersFurther.
Import DeployVercel.

(** The checkers only look and print: neither raises, and each leaves the
    working directory and the entropy source as they were, adding its lines
    after what the console already showed. *)
Theorem checkers_inspect_only (w : world) :
  (exists b, check_vercel_files w = (Ret b, log w (printed check_vercel_files w))) /\
  (exists b, check_project_structure w
             = (Ret b, log w (printed check_project_structure w))).
Proof.
  unfold check_vercel_files, check_project_structure. split.
  - rewrite (printed_log _ _ _ _ (check_files_run _ _)).
    eexists. apply check_files_run.
  - rewrite (printed_log _ _ _ _ (check_dirs_run _ _)).
    eexists. apply check_dirs_run.
Qed.

(** Adding entries to the working directory never makes a passing check
    fail. *)
Theorem checkers_monotone (w w' : world) :
  fs w ⊆ fs w' ->
  (fst (check_vercel_files w) = Ret true -> fst (check_vercel_files w') = Ret true) /\
  (fst (check_project_structure w) = Ret true ->
   fst (check_project_structure w') = Ret true).
Proof.
  intros Hsub. unfold check_vercel_files, check_project_structure.
  rewrite !check_files_true_iff, !check_dirs_true_iff. split; intros Hall.
  - eapply Forall_impl; [exact Hall|]. intros f [n Hn]. exists n.
    by apply (lookup_weaken _ _ _ _ Hn).
  - eapply Forall_impl; [exact Hall|]. intros d Hd.
    by apply (lookup_weaken _ _ _ _ Hd).
Qed.

Lemma checkers_monotone_witness :
  (fst (check_vercel_files prepared_world) = Ret true ->
   fst (check_vercel_files (set_fs (insert "README.md" (File true "")) prepared_world))
   = Ret true) /\
  (fst (check_project_structure prepared_world) = Ret true ->
   fst (check_project_structure
          (set_fs (insert "README.md" (File true "")) prepared_world)) = Ret true).
Proof.
  apply (checkers_monotone prepared_world
           (set_fs (insert "README.md" (File true "")) prepared_world)).
  apply insert_subseteq. reflexivity.
Defined.

Lemma path_exists_insert_present (m : gmap string node) (f x : string) (n : node) :
  is_Some (m !! f) -> path_exists (<[f := n]> m) x = path_exists m x.
Proof.
  intros [n' Hf]. unfold path_exists.
  destruct (decide (f = x)) as [<-|Hne].
  - by rewrite lookup_insert_eq, Hf.
  - by rewrite lookup_insert_ne.
Qed.

Lemma filter_ext_bool {A} (f g : A -> bool) (l : list A) :
  (forall x, f x = g x) -> List.filter f l = List.filter g l.
Proof.
  intros Hext. induction l as [|x l IH]; [done|]. cbn. by rewrite Hext, IH.
Qed.

Lemma forallb_ext_bool {A} (f g : A -> bool) (l : list A) :
  (forall x, f x = g x) -> forallb f l = forallb g l.
Proof.
  intros Hext. induction l as [|x l IH]; [done|]. cbn. by rewrite Hext, IH.
Qed.

(** The file checker asks only whether a path exists: a directory standing
    where a required file is expected passes, with the same result and the
    same lines. *)
Theorem file_check_accepts_directory (w : world) (f : string) :
  is_Some (fs w !! f) ->
  fst (check_vercel_files (set_fs (insert f Dir) w)) = fst (check_vercel_files w) /\
  printed check_vercel_files (set_fs (insert f Dir) w) = printed check_vercel_files w.
Proof.
  intros Hf. unfold check_vercel_files.
  assert (Hsame : forall x, path_exists (fs (set_fs (insert f Dir) w)) x
                            = path_exists (fs w) x).
  { intros x. cbn. by apply path_exists_insert_present. }
  rewrite (printed_log _ _ _ _ (check_files_run _ _)).
  rewrite (printed_log _ _ _ _ (check_files_run _ _)).
  rewrite !check_files_run. cbn [fst].
  rewrite (forallb_ext_bool _ _ _ Hsame), (filter_ext_bool _ _ _ Hsame).
  rewrite (filter_ext_bool (fun g => negb (path_exists (fs (set_fs (insert f Dir) w)) g))
             (fun g => negb (path_exists (fs w) g))); [done|].
  intros x. by rewrite Hsame.
Qed.

Lemma file_check_accepts_directory_witness :
  fst (check_vercel_files (set_fs (insert "vercel.json" Dir) prepared_world))
  = fst (check_vercel_files prepared_world) /\
  printed check_vercel_files (set_fs (insert "vercel.json" Dir) prepared_world)
  = printed check_vercel_files prepared_world.
Proof.
  apply (file_check_accepts_directory prepared_world "vercel.json").
  eexists. reflexivity.
Defined.

End CheckersFurther.

(** ** [deploy_vercel.py]: the secret generator and the checklist writer *)

Section WritersFurther.
Import DeployVercel.

(** What the generator prints, case by case. *)
Lemma printed_generate_secret_key_cases (w : world) :
  printed generate_secret_key w =
  match entropy w with
  | None => [nl +:+ "🔑 Generating secure secret key..."; error_line urandom_error]
  | Some f =>
      match open_error (fs w) secret_key_file with
      | Some e =>
          [nl +:+ "🔑 Generating secure secret key...";
           "✅ Generated SECRET_KEY: " +:+ token_of f;
           error_line e]
      | None =>
          [nl +:+ "🔑 Generating secure secret key...";
           "✅ Generated SECRET_KEY: " +:+ token_of f;
           "📝 Secret key saved to 'vercel_secret_key.txt'";
           "💡 Copy these environment variables to Vercel dashboard"]
      end
  end.
Proof.
  unfold printed. rewrite generate_secret_key_run.
  destruct (entropy w) as [f|]; [destruct (open_error (fs w) secret_key_file)|];
    cbn [snd stdout log set_fs]; apply drop_app_length.
Qed.

Lemma token_of_urlsafe (f : nat -> byte) :
  Forall (fun c => is_urlsafe c = true) (String.list_ascii_of_string (token_of f)).
Proof.
  unfold token_of.
  destruct (token_chars (map f (seq 0 32))) as (chars & -> & _ & Hsafe).
  by rewrite String.list_ascii_of_string_of_list_ascii.
Qed.

(** The key a successful run returns is 43 characters long, each a letter, a
    digit, [-] or [_]: it carries no padding, blank or line break, and it is
    not the empty (falsy) string. *)
Theorem secret_key_format (w w' : world) (tok : string) :
  generate_secret_key w = (Ret (Some tok), w') ->
  String.length tok = 43 /\
  Forall (fun c => is_urlsafe c = true) (String.list_ascii_of_string tok) /\
  has_char b64_pad tok = false /\
  truthy_opt_str (Some tok) = true.
Proof.
  rewrite generate_secret_key_run.
  destruct (entropy w) as [f|]; [|discriminate].
  destruct (open_error (fs w) secret_key_file); [discriminate|].
  intros Hrun. replace tok with (token_of f) by congruence.
  destruct (token_of_facts f) as (Hlen & Htruthy & _).
  split; [exact Hlen|]. split; [apply token_of_urlsafe|]. split; [|exact Htruthy].
  rewrite <- (String.string_of_list_ascii_of_string (token_of f)).
  apply has_char_string_of_list_ascii.
  eapply Forall_impl; [apply token_of_urlsafe|].
  intros c Hc. by apply is_urlsafe_not.
Qed.

Lemma secret_key_format_witness :
  String.length zero_token = 43 /\
  Forall (fun c => is_urlsafe c = true) (String.list_ascii_of_string zero_token) /\
  has_char b64_pad zero_token = false /\
  truthy_opt_str (Some zero_token) = true.
Proof.
  apply (secret_key_format zero_entropy_world (snd (generate_secret_key zero_entropy_world))).
  vm_compute. reflexivity.
Defined.



(** When the file cannot be opened for writing the key has already been
    printed: the run returns [None] and writes nothing, but the console
    shows the key that was generated. *)
Theorem key_shown_before_refused_write (w : world) (f : nat -> byte) (e : exn) :
  entropy w = Some f ->
  open_error (fs w) secret_key_file = Some e ->
  fst (generate_secret_key w) = Ret None /\
  fs (snd (generate_secret_key w)) = fs w /\
  ("✅ Generated SECRET_KEY: " +:+ token_of f) ∈ printed generate_secret_key w /\
  last (printed generate_secret_key w) = Some (error_line e).
Proof.
  intros Hent Hopen.
  rewrite printed_generate_secret_key_cases, generate_secret_key_run, Hent, Hopen.
  repeat split. apply list_elem_of_further, list_elem_of_here.
Qed.

Lemma key_shown_before_refused_write_witness :
  fst (generate_secret_key (set_fs (insert secret_key_file Dir) zero_entropy_world))
  = Ret None /\
  fs (snd (generate_secret_key (set_fs (insert secret_key_file Dir) zero_entropy_world)))
  = fs (set_fs (insert secret_key_file Dir) zero_entropy_world) /\
  ("✅ Generated SECRET_KEY: " +:+ token_of (fun _ => x00))
  ∈ printed generate_secret_key (set_fs (insert secret_key_file Dir) zero_entropy_world) /\
  last (printed generate_secret_key
          (set_fs (insert secret_key_file Dir) zero_entropy_world))
  = Some (error_line (Exn "IsADirectoryError"
                          "[Errno 21] Is a directory: 'vercel_secret_key.txt'")).
Proof.
  apply (key_shown_before_refused_write
           (set_fs (insert secret_key_file Dir) zero_entropy_world)); reflexivity.
Defined.

(** Once the checklist has been written, writing it again succeeds and
    leaves the working directory as the first run left it. *)
Theorem checklist_rerun (w w1 : world) :
  create_deployment_checklist w = (Ret tt, w1) ->
  exists w2, create_deployment_checklist w1 = (Ret tt, w2) /\ fs w2 = fs w1.
Proof.
  rewrite create_deployment_checklist_run.
  destruct (open_error (fs w) checklist_file) as [e|]; [discriminate|].
  intros [= <-]. rewrite create_deployment_checklist_run.
  assert (Hopen : open_error
            (fs (log (set_fs (insert checklist_file (File true checklist_content)) w)
                     [nl +:+ "📋 Creating deployment checklist...";
                      "✅ Deployment checklist created: 'VERCEL-CHECKLIST.md'"]))
            checklist_file = None).
  { unfold open_error. cbn [fs log set_fs]. by rewrite lookup_insert_eq. }
  rewrite Hopen. eexists. split; [reflexivity|].
  cbn [fs log set_fs]. apply insert_insert_eq.
Qed.

Lemma checklist_rerun_witness :
  exists w2,
    create_deployment_checklist (snd (create_deployment_checklist zero_entropy_world))
    = (Ret tt, w2) /\
    fs w2 = fs (snd (create_deployment_checklist zero_entropy_world)).
Proof.
  apply (checklist_rerun zero_entropy_world). reflexivity.
Defined.

End WritersFurther.

(** ** [deploy_vercel.py]: what [main] leaves behind *)

Section MainFurther.
Import DeployVercel.

Lemma exit_status_snd (w : world) : snd (exit_status w) = snd (main w).
Proof. unfold exit_status. by destruct (main w) as [[[]|e] w']. Qed.

(** The working directory and the entropy source after [main]. *)
Lemma main_world (w : world) :
  entropy (snd (main w)) = entropy w /\
  fs (snd (main w)) =
  match forallb (path_exists (fs w)) required_files,
        forallb (dir_ok (fs w)) required_dirs,
        entropy w,
        open_error (fs w) secret_key_file
  with
  | true, true, Some f, None =>
      match open_error (fs w) checklist_file with
      | Some _ =>
          <[secret_key_file := File true (secret_file_content (token_of f))]> (fs w)
      | None =>
          <[checklist_file := File true checklist_content]>
            (<[secret_key_file := File true (secret_file_content (token_of f))]> (fs w))
      end
  | _, _, _, _ => fs w
  end.
Proof.
  rewrite main_run. cbv zeta.
  destruct (forallb (path_exists (fs w)) required_files); [|by split].
  destruct (forallb (dir_ok (fs w)) required_dirs); [|by split].
  destruct (entropy w) as [f|] eqn:Hent; [|by split].
  destruct (open_error (fs w) secret_key_file); [by split|].
  destruct (open_error (fs w) checklist_file); by split.
Qed.

Lemma required_untouched (m m' : gmap string node) :
  (forall p, p <> secret_key_file -> p <> checklist_file -> m' !! p = m !! p) ->
  forallb (path_exists m') required_files = forallb (path_exists m) required_files /\
  forallb (dir_ok m') required_dirs = forallb (dir_ok m) required_dirs.
Proof.
  intros Hsame. unfold required_files, required_dirs, dir_ok, path_exists, path_isdir.
  cbn [forallb]. by rewrite !Hsame.
Qed.

(** The generator writes only [vercel_secret_key.txt], the checklist writer
    only [VERCEL-CHECKLIST.md], and [main] only these two: every other path
    of the working directory is after the run what it was before. *)
Theorem outputs_only (w : world) (p : string) :
  p <> secret_key_file ->
  p <> checklist_file ->
  fs (snd (generate_secret_key w)) !! p = fs w !! p /\
  fs (snd (create_deployment_checklist w)) !! p = fs w !! p /\
  fs (snd (main w)) !! p = fs w !! p.
Proof.
  intros Hsecret Hchecklist. split; [|split].
  - rewrite generate_secret_key_fs.
    destruct (entropy w); [|done].
    destruct (open_error (fs w) secret_key_file); [done|].
    by rewrite lookup_insert_ne.
  - rewrite create_deployment_checklist_run.
    destruct (open_error (fs w) checklist_file); [done|].
    cbn [snd fs log set_fs]. by rewrite lookup_insert_ne.
  - rewrite (proj2 (main_world w)).
    destruct (forallb (path_exists (fs w)) required_files); [|done].
    destruct (forallb (dir_ok (fs w)) required_dirs); [|done].
    destruct (entropy w); [|done].
    destruct (open_error (fs w) secret_key_file); [done|].
    destruct (open_error (fs w) checklist_file);
      by rewrite ?(lookup_insert_ne _ checklist_file), ?(lookup_insert_ne _ secret_key_file).
Qed.

Lemma outputs_only_witness :
  fs (snd (generate_secret_key prepared_world)) !! "vercel.json"
  = fs prepared_world !! "vercel.json" /\
  fs (snd (create_deployment_checklist prepared_world)) !! "vercel.json"
  = fs prepared_world !! "vercel.json" /\
  fs (snd (main prepared_world)) !! "vercel.json" = fs prepared_world !! "vercel.json".
Proof.
  apply (outputs_only prepared_world "vercel.json"); discriminate.
Defined.

(** A run that ends with status 0 leaves both files behind: the secret file
    with the key that was shown on the console, 43 characters long, and the
    checklist with its fixed text; the last line printed points at the secret
    file. *)
Theorem successful_run_outputs (w : world) :
  fst (exit_status w) = 0 ->
  exists tok,
    fs (snd (exit_status w)) !! secret_key_file
    = Some (File true (secret_file_content tok)) /\
    fs (snd (exit_status w)) !! checklist_file = Some (File true checklist_content) /\
    String.length tok = 43 /\
    ("✅ Generated SECRET_KEY: " +:+ tok) ∈ stdout (snd (exit_status w)) /\
    last (stdout (snd (exit_status w)))
    = Some "🔑 Check 'vercel_secret_key.txt' for environment variables".
Proof.
  rewrite exit_status_fst, exit_status_snd. intros Hzero.
  destruct (forallb (path_exists (fs w)) required_files) eqn:Hfiles; [|discriminate].
  destruct (forallb (dir_ok (fs w)) required_dirs) eqn:Hdirs; [|discriminate].
  destruct (entropy w) as [f|] eqn:Hent; [|discriminate].
  destruct (open_error (fs w) secret_key_file) eqn:Hsecret; [discriminate|].
  destruct (open_error (fs w) checklist_file) eqn:Hchecklist; [discriminate|].
  exists (token_of f).
  rewrite (proj2 (main_world w)), Hfiles, Hdirs, Hent, Hsecret, Hchecklist.
  split; [by rewrite lookup_insert_ne, lookup_insert_eq|].
  split; [by rewrite lookup_insert_eq|].
  split; [apply token_of_facts|].
  rewrite main_run. cbv zeta.
  rewrite Hfiles, Hdirs, Hent, Hsecret, Hchecklist. cbn [negb snd stdout log set_fs].
  rewrite printed_generate_secret_key_cases, Hent, Hsecret. split.
  - rewrite !elem_of_app. right. left. right.
    apply list_elem_of_further, list_elem_of_here.
  - by rewrite !last_app.
Qed.

Lemma successful_run_outputs_witness :
  exists tok,
    fs (snd (exit_status prepared_world)) !! secret_key_file
    = Some (File true (secret_file_content tok)) /\
    fs (snd (exit_status prepared_world)) !! checklist_file
    = Some (File true checklist_content) /\
    String.length tok = 43 /\
    ("✅ Generated SECRET_KEY: " +:+ tok) ∈ stdout (snd (exit_status prepared_world)) /\
    last (stdout (snd (exit_status prepared_world)))
    = Some "🔑 Check 'vercel_secret_key.txt' for environment variables".
Proof.
  apply (successful_run_outputs prepared_world). vm_compute. reflexivity.
Defined.

(** When the three checks succeed and the checklist cannot be opened, the
    error of [open] leaves [main] uncaught, after the secret file has been
    written: the run leaves a key behind and no checklist. *)
Theorem checklist_refused_after_secret (w : world) (e : exn) :
  checks_succeed w ->
  open_error (fs w) checklist_file = Some e ->
  fst (main w) = Raise e /\
  (exists tok, fs (snd (main w)) !! secret_key_file
               = Some (File true (secret_file_content tok))) /\
  fs (snd (main w)) !! checklist_file = fs w !! checklist_file /\
  last (stdout (snd (main w))) = Some (nl +:+ "📋 Creating deployment checklist...").
Proof.
  intros (Hfiles & Hdirs & f & Hent & Hsecret)%checks_succeed_iff Hchecklist.
  rewrite (proj2 (main_world w)), main_run. cbv zeta.
  rewrite Hfiles, Hdirs, Hent, Hsecret, Hchecklist. cbn [negb fst snd stdout log set_fs].
  split; [reflexivity|]. split; [|split].
  - exists (token_of f). apply lookup_insert_eq.
  - by rewrite lookup_insert_ne.
  - by rewrite !last_app.
Qed.

Lemma checklist_refused_after_secret_witness :
  fst (main checklist_blocked_world)
  = Raise (Exn "IsADirectoryError" "[Errno 21] Is a directory: 'VERCEL-CHECKLIST.md'") /\
  (exists tok, fs (snd (main checklist_blocked_world)) !! secret_key_file
               = Some (File true (secret_file_content tok))) /\
  fs (snd (main checklist_blocked_world)) !! checklist_file
  = fs checklist_blocked_world !! checklist_file /\
  last (stdout (snd (main checklist_blocked_world)))
  = Some (nl +:+ "📋 Creating deployment checklist...").
Proof.
  apply (checklist_refused_after_secret checklist_blocked_world).
  - split; [vm_compute; reflexivity|]. split; [vm_compute; reflexivity|].
    exists zero_token. vm_compute. reflexivity.
  - reflexivity.
Defined.

(** Running the script again on what it left behind ends with the same exit
    status: its own output files never get in the way of the next run. *)
Theorem exit_status_rerun (w : world) :
  fst (exit_status (snd (exit_status w))) = fst (exit_status w).
Proof.
  rewrite !exit_status_fst, exit_status_snd.
  destruct (main_world w) as [Hentropy Hfs]. rewrite Hentropy.
  assert (Hkept : forall p, p <> secret_key_file -> p <> checklist_file ->
                            fs (snd (main w)) !! p = fs w !! p).
  { intros p H1 H2. rewrite Hfs.
    destruct (forallb (path_exists (fs w)) required_files); [|done].
    destruct (forallb (dir_ok (fs w)) required_dirs); [|done].
    destruct (entropy w); [|done].
    destruct (open_error (fs w) secret_key_file); [done|].
    destruct (open_error (fs w) checklist_file);
      by rewrite ?(lookup_insert_ne _ checklist_file), ?(lookup_insert_ne _ secret_key_file). }
  destruct (required_untouched _ _ Hkept) as [-> ->].
  destruct (forallb (path_exists (fs w)) required_files) eqn:Hfiles; [|reflexivity].
  destruct (forallb (dir_ok (fs w)) required_dirs) eqn:Hdirs; [|reflexivity].
  destruct (entropy w) as [f|] eqn:Hent; [|reflexivity].
  rewrite Hfs.
  destruct (open_error (fs w) secret_key_file) eqn:Hsecret; [by rewrite Hsecret|].
  destruct (open_error (fs w) checklist_file) eqn:Hchecklist.
  - unfold open_error at 1. rewrite lookup_insert_eq.
    by rewrite open_error_other, Hchecklist.
  - rewrite (open_error_other _ checklist_file secret_key_file) by done.
    unfold open_error. by rewrite !lookup_insert_eq.
Qed.

End MainFurther.

(** ** [vercel_main.py]: the health payload, the startup hook, the routes *)

Section ApplicationFurther.
Import VercelMain.
Context {E : Type}.
Variable test_connection : M (world E) pyval.

(** The health payload agrees with itself: it is [healthy] exactly when its
    database entry says [connected], [warning] exactly when that entry says
    [disconnected], and [error] exactly when there is no database entry; it
    always names the [vercel] environment. *)
Theorem health_payload_consistent (w : world E) :
  match fst (health_check test_connection w) with
  | Raise _ => False
  | Ret payload =>
      field "environment" payload = Some (JStr "vercel") /\
      (field "status" payload = Some (JStr "healthy") <->
       field "database" payload ≫= field "status" = Some (JStr "connected")) /\
      (field "status" payload = Some (JStr "warning") <->
       field "database" payload ≫= field "status" = Some (JStr "disconnected")) /\
      (field "status" payload = Some (JStr "error") <->
       field "database" payload = None)
  end.
Proof.
  unfold health_check, try_except, bind.
  destruct (test_connection w) as [[v|e] w1]; cbn [fst].
  - destruct (truthy v); cbn; repeat split; intros; congruence.
  - cbn. repeat split; intros; congruence.
Qed.

(** The schema initialisation is consulted only after a connectivity check
    that returned a truthy value: when the check returns a falsy one, or
    raises, the hook does the same whatever the initialisation would do. *)
Theorem init_db_only_after_connection (init_db init_db' : M (world E) pyval) (w : world E) :
  (forall v,
     fst (test_connection (log w ["🚀 Starting Jubair Boot House on Vercel...";
                                  "💻 Vercel mode: Using SQLite database"])) = Ret v ->
     truthy v = false) ->
  startup_event test_connection init_db w = startup_event test_connection init_db' w.
Proof.
  intros Hfalsy. unfold startup_event.
  rewrite !(bind_returns _ _ _ _ _ (app_print_run _ w)).
  rewrite !(bind_returns _ _ _ _ _ (app_print_run _ _)).
  rewrite app_log_log. cbn [app].
  destruct (test_connection _) as [[v|e] w1] eqn:Hconn.
  - rewrite !(bind_returns _ _ _ _ _ Hconn). by rewrite (Hfalsy v eq_refl).
  - by rewrite !(bind_raises _ _ _ _ _ Hconn).
Qed.

End ApplicationFurther.

Section RoutesFurther.
Import VercelMain.

Lemma init_db_only_after_connection_witness :
  startup_event (ret PyNone) db_down (World tt [])
  = startup_event (ret PyNone) (ret (PyBool true)) (World tt []).
Proof.
  apply (init_db_only_after_connection (ret PyNone) db_down (ret (PyBool true)) (World tt [])).
  intros v [= <-]. reflexivity.
Defined.

(** No path is registered twice: a GET of a registered path is answered by
    the handler registered for it. *)
Theorem every_route_reachable
    (req : request) (p : string) (handler : request -> response) :
  (p, handler) ∈ page_routes ->
  method req = "GET" ->
  path req = p ->
  serve_page req = Some (handler req).
Proof.
  intros Hroute Hget Hpath. unfold serve_page. rewrite Hget, Hpath.
  unfold page_routes in Hroute. each_route Hroute; reflexivity.
Qed.

Lemma every_route_reachable_witness :
  serve_page (Request "GET" "/shipping" "" [] "")
  = Some (shipping_page (Request "GET" "/shipping" "" [] "")).
Proof.
  apply (every_route_reachable (Request "GET" "/shipping" "" [] "") "/shipping").
  - unfold page_routes. do 12 apply list_elem_of_further. apply list_elem_of_here.
  - reflexivity.
  - reflexivity.
Defined.

(** Whatever is served from the route table is a GET, and is one of two
    things: for the three redirect paths a redirect, for every other path a
    template rendered with the request itself as its only context variable. *)
Theorem served_pages_classified (req : request) (r : response) :
  serve_page req = Some r ->
  method req = "GET" /\
  (is_Some (redirect_target r) <->
   path req ∈ ["/catalog"; "/admin/dashboard"; "/admin/users"]) /\
  (redirect_target r = None ->
   exists name, r = TemplateResponse name [("request", req)]).
Proof.
  unfold serve_page.
  destruct (String.eqb_spec (method req) "GET") as [Hget|]; [|discriminate].
  split; [exact Hget|]. revert H. unfold page_routes. cbn [assoc].
  repeat (match goal with
          | |- context [String.eqb ?k (path req)] =>
              destruct (String.eqb_spec k (path req)) as [<-|?]
          end; [intros [= <-]; classify_route|]).
  discriminate.
Qed.

Lemma served_pages_classified_witness :
  method (Request "GET" "/faq" "" [] "") = "GET" /\
  (is_Some (redirect_target (faq_page (Request "GET" "/faq" "" [] ""))) <->
   path (Request "GET" "/faq" "" [] "") ∈ ["/catalog"; "/admin/dashboard"; "/admin/users"]) /\
  (redirect_target (faq_page (Request "GET" "/faq" "" [] "")) = None ->
   exists name,
     faq_page (Request "GET" "/faq" "" [] "")
     = TemplateResponse name [("request", Request "GET" "/faq" "" [] "")]).
Proof.
  apply (served_pages_classified (Request "GET" "/faq" "" [] "")). reflexivity.
Defined.

End RoutesFurther.
